(** * md-viewer: a shallow embedding of [md-viewer.py]

    The program is one HTTP request handler, [DirectoryHandler], over a
    directory tree.  The embedding follows the source: the [str] methods,
    [os.path], [pathlib] and [urllib.parse] functions the handler calls,
    a file system to resolve paths in, then [do_GET] and the three
    [serve_] methods.

    Python [str] values are represented by their UTF-8 encoding, one
    [ascii] per byte, so [str.encode()] is the identity and decoding a
    file is a validity check.  The case functions [lower] and [title] act
    on the ASCII letters, which is what Python does on ASCII text.

    The file system is a tree of regular files, directories and entries
    of other kinds; it has no symbolic links to directories and no
    permissions, so a path that resolves can be read.  A function that
    raises returns [Raise]; [do_GET] returns the response it sends, or
    [Raise] when an exception leaves it and nothing is sent. *)

From Stdlib Require Import List Bool Arith NArith Lia Ascii String.
From Stdlib Require Import DecimalNat DecimalString Sorting.Sorted Sorting.Permutation.
Import ListNotations.

Open Scope list_scope.
Open Scope string_scope.

(** ** Exceptions *)

Inductive pyexc : Type :=
| ValueError
| IndexError
| OSError
| UnicodeDecodeError.

(** [Raise e] is an exception that leaves the function. *)
Inductive result (A : Type) : Type :=
| Ok (a : A)
| Raise (e : pyexc).

Arguments Ok {A} a.
Arguments Raise {A} e.

Definition bind {A B : Type} (r : result A) (k : A -> result B) : result B :=
  match r with
  | Ok a => k a
  | Raise e => Raise e
  end.

Notation "x <- r ;; k" := (bind r (fun x => k))
  (at level 61, r at next level, right associativity).

(** ** Python [str] methods used by the handler *)

Module PyStr.

Definition code (a : ascii) : nat := nat_of_ascii a.

Definition between (lo hi : nat) (a : ascii) : bool :=
  Nat.leb lo (code a) && Nat.leb (code a) hi.

Definition is_upper (a : ascii) : bool := between 65 90 a.
Definition is_lower (a : ascii) : bool := between 97 122 a.
Definition is_cased (a : ascii) : bool := is_upper a || is_lower a.
Definition is_digit (a : ascii) : bool := between 48 57 a.

Definition to_lower (a : ascii) : ascii :=
  if is_upper a then ascii_of_nat (code a + 32) else a.
Definition to_upper (a : ascii) : ascii :=
  if is_lower a then ascii_of_nat (code a - 32) else a.

(** [s.lower()], on ASCII text: other characters are left as they are. *)
Fixpoint lower (s : string) : string :=
  match s with
  | EmptyString => EmptyString
  | String a s' => String (to_lower a) (lower s')
  end.

(** [s.title()], on ASCII text: a letter that follows a letter is
    lowered, any other letter is raised; other characters are left as
    they are. *)
Fixpoint title_from (previous_is_cased : bool) (s : string) : string :=
  match s with
  | EmptyString => EmptyString
  | String a s' =>
      String (if previous_is_cased then to_lower a else to_upper a)
             (title_from (is_cased a) s')
  end.

Definition title (s : string) : string := title_from false s.

(** [s.replace(old, new)] for one-character [old] and [new]. *)
Fixpoint replace (old new : ascii) (s : string) : string :=
  match s with
  | EmptyString => EmptyString
  | String a s' => String (if Ascii.eqb a old then new else a) (replace old new s')
  end.

(** [s.startswith(p)] *)
Fixpoint startswith (s p : string) {struct p} : bool :=
  match p with
  | EmptyString => true
  | String b p' =>
      match s with
      | EmptyString => false
      | String a s' => Ascii.eqb a b && startswith s' p'
      end
  end.

(** [s.endswith(p)]: some tail of [s] is [p]. *)
Fixpoint endswith (s p : string) : bool :=
  if String.eqb s p then true
  else match s with
       | EmptyString => false
       | String _ s' => endswith s' p
       end.

(** [s.lstrip(c)] for a one-character set. *)
Fixpoint lstrip (c : ascii) (s : string) : string :=
  match s with
  | EmptyString => EmptyString
  | String a s' => if Ascii.eqb a c then lstrip c s' else s
  end.

(** [s.split(c)] *)
Fixpoint split (c : ascii) (s : string) : list string :=
  match s with
  | EmptyString => [EmptyString]
  | String a s' =>
      if Ascii.eqb a c then EmptyString :: split c s'
      else match split c s' with
           | [] => [String a EmptyString]
           | x :: xs => String a x :: xs
           end
  end.

(** [c.join(l)] *)
Definition join (c : string) (l : list string) : string := String.concat c l.

(** [s.find(c)] and [s.rfind(c)], [None] standing for -1. *)
Fixpoint find (c : ascii) (s : string) : option nat :=
  match s with
  | EmptyString => None
  | String a s' =>
      if Ascii.eqb a c then Some 0
      else match find c s' with
           | Some i => Some (S i)
           | None => None
           end
  end.

Fixpoint rfind (c : ascii) (s : string) : option nat :=
  match s with
  | EmptyString => None
  | String a s' =>
      match rfind c s' with
      | Some i => Some (S i)
      | None => if Ascii.eqb a c then Some 0 else None
      end
  end.

(** The slices [s[i:]] and [s[:i]]. *)
Fixpoint slice_from (i : nat) (s : string) : string :=
  match i, s with
  | O, _ => s
  | S _, EmptyString => EmptyString
  | S j, String _ s' => slice_from j s'
  end.

Fixpoint slice_to (i : nat) (s : string) : string :=
  match i, s with
  | O, _ => EmptyString
  | S _, EmptyString => EmptyString
  | S j, String a s' => String a (slice_to j s')
  end.

(** [str(n)] for a length. *)
Definition str (n : nat) : string := NilZero.string_of_uint (Nat.to_uint n).

(** Comparison of lists of strings, as Python orders lists. *)
Fixpoint list_compare (l1 l2 : list string) : comparison :=
  match l1, l2 with
  | [], [] => Eq
  | [], _ :: _ => Lt
  | _ :: _, [] => Gt
  | x :: t1, y :: t2 =>
      match String.compare x y with
      | Eq => list_compare t1 t2
      | c => c
      end
  end.

(** [min([a, b])] and [max([a, b])]: the first of the least, or greatest. *)
Definition min2 (a b : list string) : list string :=
  match list_compare b a with Lt => b | _ => a end.
Definition max2 (a b : list string) : list string :=
  match list_compare b a with Gt => b | _ => a end.

(** [sorted(l)] on strings; the order is total and antisymmetric, so the
    result does not depend on the sorting algorithm. *)
Fixpoint insert_sorted (x : string) (l : list string) : list string :=
  match l with
  | [] => [x]
  | y :: t => if String.leb x y then x :: l else y :: insert_sorted x t
  end.

Fixpoint sorted (l : list string) : list string :=
  match l with
  | [] => []
  | x :: t => insert_sorted x (sorted t)
  end.

End PyStr.

(** ** [os.path] (posixpath) *)

Module PosixPath.
Import PyStr.

Definition sep : ascii := "/"%char.
Definition curdir : string := ".".
Definition pardir : string := "..".

Definition isabs (p : string) : bool := startswith p "/".

(** [os.path.join(a, b)] *)
Definition join2 (a b : string) : string :=
  if startswith b "/" then b
  else if String.eqb a "" || endswith a "/" then a ++ b
  else a ++ "/" ++ b.

(** [os.path.join] applied to the elements of a non-empty list. *)
Definition join_all (l : list string) : string :=
  match l with
  | [] => ""
  | a :: t => fold_left join2 t a
  end.

(** The loop of [normpath].  [new_comps] is kept with its last element
    first, so [append] is a cons and [pop] a tail. *)
Fixpoint normpath_loop (initial_slashes : nat) (new_comps : list string)
         (comps : list string) : list string :=
  match comps with
  | [] => new_comps
  | comp :: rest =>
      if String.eqb comp "" || String.eqb comp "." then
        normpath_loop initial_slashes new_comps rest
      else if negb (String.eqb comp "..")
              || (Nat.eqb initial_slashes 0 && match new_comps with [] => true | _ => false end)
              || match new_comps with
                 | last :: _ => String.eqb last ".."
                 | [] => false
                 end
      then normpath_loop initial_slashes (comp :: new_comps) rest
      else match new_comps with
           | _ :: popped => normpath_loop initial_slashes popped rest
           | [] => normpath_loop initial_slashes new_comps rest
           end
  end.

Definition initial_slashes_of (path : string) : nat :=
  if startswith path "/" then
    if startswith path "//" && negb (startswith path "///") then 2 else 1
  else 0.

Fixpoint repeat_sep (n : nat) : string :=
  match n with
  | O => ""
  | S m => String sep (repeat_sep m)
  end.

(** [os.path.normpath(path)] *)
Definition normpath (path : string) : string :=
  if String.eqb path "" then curdir
  else
    let initial_slashes := initial_slashes_of path in
    let comps := rev (normpath_loop initial_slashes [] (split sep path)) in
    let path' := repeat_sep initial_slashes ++ join "/" comps in
    if String.eqb path' "" then curdir else path'.

(** [os.path.abspath(path)], with the working directory as an argument. *)
Definition abspath (cwd path : string) : string :=
  normpath (if isabs path then path else join2 cwd path).

(** The loop shared by [commonpath] and [genericpath.commonprefix]: the
    longest common prefix of [s1] and [s2], indexing [s2] as the source
    does. *)
Fixpoint common_loop (s1 s2 : list string) : result (list string) :=
  match s1 with
  | [] => Ok []
  | c :: t1 =>
      match s2 with
      | [] => Raise IndexError
      | d :: t2 =>
          if String.eqb c d then r <- common_loop t1 t2 ;; Ok (c :: r)
          else Ok []
      end
  end.

Definition keep_comp (c : string) : bool :=
  negb (String.eqb c "") && negb (String.eqb c curdir).

Definition nonempty (c : string) : bool := negb (String.eqb c "").

(** [os.path.commonpath([p1, p2])] *)
Definition commonpath (p1 p2 : string) : result string :=
  if negb (Bool.eqb (isabs p1) (isabs p2)) then Raise ValueError
  else
    let sp1 := filter keep_comp (split sep p1) in
    let sp2 := filter keep_comp (split sep p2) in
    let s1 := min2 sp1 sp2 in
    let s2 := max2 sp1 sp2 in
    common <- common_loop s1 s2 ;;
    Ok ((if isabs p1 then "/" else "") ++ join "/" common).

(** [genericpath.commonprefix([l1, l2])] on lists. *)
Definition commonprefix (l1 l2 : list string) : result (list string) :=
  common_loop (min2 l1 l2) (max2 l1 l2).

(** [os.path.relpath(path, start)] *)
Definition relpath (cwd path start : string) : result string :=
  if String.eqb path "" then Raise ValueError
  else
    let start_list := filter nonempty (split sep (abspath cwd start)) in
    let path_list := filter nonempty (split sep (abspath cwd path)) in
    common <- commonprefix start_list path_list ;;
    let i := List.length common in
    let rel_list := (repeat pardir (List.length start_list - i) ++ skipn i path_list)%list in
    match rel_list with
    | [] => Ok curdir
    | _ => Ok (join_all rel_list)
    end.

(** [os.path.basename(p)] *)
Definition basename (p : string) : string :=
  match rfind sep p with
  | Some i => slice_from (S i) p
  | None => p
  end.

End PosixPath.

(** ** [pathlib.Path] *)

Module Pathlib.
Import PyStr.

(** The root of a POSIX path: exactly two leading slashes are kept. *)
Definition root_of (p : string) : string :=
  PosixPath.repeat_sep (PosixPath.initial_slashes_of p).

Definition parts (p : string) : list string :=
  filter PosixPath.keep_comp (split PosixPath.sep p).

(** [str(Path(a, b))] *)
Definition Path (a b : string) : string :=
  let '(root, comps) :=
    if PosixPath.isabs b then (root_of b, parts b)
    else (root_of a, (parts a ++ parts b)%list) in
  let s := root ++ join "/" comps in
  if String.eqb s "" then "." else s.

(** [Path.name] of a path given as a string. *)
Definition name (p : string) : string := last (parts p) "".

(** [PurePath.suffix], from the name. *)
Definition suffix_of_name (nm : string) : string :=
  match rfind "." nm with
  | Some i =>
      if Nat.ltb 0 i && Nat.ltb i (String.length nm - 1) then slice_from i nm
      else ""
  | None => ""
  end.

Definition suffix (p : string) : string := suffix_of_name (name p).

End Pathlib.

(** ** [urllib.parse] *)

Module Urllib.
Import PyStr.

Definition hex_digit (n : nat) : ascii :=
  if Nat.ltb n 10 then ascii_of_nat (48 + n) else ascii_of_nat (55 + n).

(** Characters [quote] never encodes, with the default [safe='/']. *)
Definition always_safe (a : ascii) : bool :=
  is_upper a || is_lower a || is_digit a
  || Ascii.eqb a "_" || Ascii.eqb a "." || Ascii.eqb a "-" || Ascii.eqb a "~"
  || Ascii.eqb a "/".

(** [urllib.parse.quote(s)] *)
Fixpoint quote (s : string) : string :=
  match s with
  | EmptyString => EmptyString
  | String a s' =>
      if always_safe a then String a (quote s')
      else String "%" (String (hex_digit (code a / 16))
                      (String (hex_digit (code a mod 16)) (quote s')))
  end.

(** [_splitparams(url)] *)
Definition splitparams (url : string) : string :=
  match rfind "/" url with
  | Some j =>
      match find ";" (slice_from j url) with
      | Some k => slice_to (j + k) url
      | None => url
      end
  | None =>
      match find ";" url with
      | Some k => slice_to k url
      | None => url
      end
  end.

Definition cut_at (c : ascii) (url : string) : string :=
  match find c url with
  | Some k => slice_to k url
  | None => url
  end.

(** [urlparse(target).path] for an origin-form request target, one that
    starts with a single slash: no scheme and no network location are
    split off, the fragment, the query and the parameters of the last
    segment are.  Nothing is percent-decoded. *)
Definition urlparse_path (target : string) : string :=
  splitparams (cut_at "?" (cut_at "#" target)).

End Urllib.

(** ** The file system

    A node is a regular file with its bytes, a directory with its named
    entries, or an entry of another kind (a FIFO, a socket, a device, a
    dangling symbolic link): such an entry is listed by [os.listdir] and
    is neither [isfile] nor [isdir]. *)

Module FS.
Import PyStr.

#[warnings="-register-all"]
Inductive node : Type :=
| File (data : string)
| Dir (entries : list (string * node))
| Special.

Fixpoint lookup (nm : string) (es : list (string * node)) : option node :=
  match es with
  | [] => None
  | (n, x) :: t => if String.eqb n nm then Some x else lookup nm t
  end.

(** Resolution of the components of a path, as the kernel does it:
    every step needs a directory, [..] goes to the parent (the root is
    its own parent), an empty component or [.] stays. *)
Fixpoint walk (parents : list node) (cur : node) (comps : list string)
  : option node :=
  match comps with
  | [] => Some cur
  | comp :: rest =>
      match cur with
      | Dir es =>
          if String.eqb comp "" || String.eqb comp "." then walk parents cur rest
          else if String.eqb comp ".." then
            match parents with
            | [] => walk [] cur rest
            | p :: ps => walk ps p rest
            end
          else
            match lookup comp es with
            | Some child => walk (cur :: parents) child rest
            | None => None
            end
      | _ => None
      end
  end.

Definition resolve (root : node) (cwd path : string) : option node :=
  if String.eqb path "" then None
  else walk [] root
         (split "/" (if PosixPath.isabs path then path else PosixPath.join2 cwd path)).

Definition isfile (root : node) (cwd path : string) : bool :=
  match resolve root cwd path with
  | Some (File _) => true
  | _ => false
  end.

Definition isdir (root : node) (cwd path : string) : bool :=
  match resolve root cwd path with
  | Some (Dir _) => true
  | _ => false
  end.

(** [os.listdir(path)], in the order the directory holds its entries. *)
Definition listdir (root : node) (cwd path : string) : result (list string) :=
  match resolve root cwd path with
  | Some (Dir es) => Ok (map fst es)
  | _ => Raise OSError
  end.

(** [open(path, "rb").read()] *)
Definition read_bytes (root : node) (cwd path : string) : result string :=
  match resolve root cwd path with
  | Some (File data) => Ok data
  | _ => Raise OSError
  end.

Definition byte_in (lo hi : nat) (a : ascii) : bool := between lo hi a.

(** Well-formed UTF-8, as the strict decoder accepts it: no overlong
    form, no surrogate, nothing above U+10FFFF. *)
Fixpoint utf8_valid (s : string) : bool :=
  match s with
  | EmptyString => true
  | String a r1 =>
      if byte_in 0 127 a then utf8_valid r1
      else match r1 with
      | EmptyString => false
      | String b r2 =>
          if byte_in 194 223 a then byte_in 128 191 b && utf8_valid r2
          else match r2 with
          | EmptyString => false
          | String c r3 =>
              if byte_in 224 239 a then
                (if Nat.eqb (code a) 224 then byte_in 160 191 b
                 else if Nat.eqb (code a) 237 then byte_in 128 159 b
                 else byte_in 128 191 b)
                && byte_in 128 191 c && utf8_valid r3
              else match r3 with
              | EmptyString => false
              | String d r4 =>
                  byte_in 240 244 a
                  && (if Nat.eqb (code a) 240 then byte_in 144 191 b
                      else if Nat.eqb (code a) 244 then byte_in 128 143 b
                      else byte_in 128 191 b)
                  && byte_in 128 191 c && byte_in 128 191 d
                  && utf8_valid r4
              end
          end
      end
  end.

(** Universal newlines of text mode: [\r\n] and [\r] are read as [\n]. *)
Fixpoint universal_newlines (s : string) : string :=
  match s with
  | EmptyString => EmptyString
  | String a r =>
      if Nat.eqb (code a) 13 then
        match r with
        | String b r' =>
            if Nat.eqb (code b) 10 then String b (universal_newlines r')
            else String (ascii_of_nat 10) (universal_newlines r)
        | EmptyString => String (ascii_of_nat 10) EmptyString
        end
      else String a (universal_newlines r)
  end.

(** [open(path, "r", encoding="utf-8").read()] *)
Definition read_text (root : node) (cwd path : string) : result string :=
  data <- read_bytes root cwd path ;;
  if utf8_valid data then Ok (universal_newlines data)
  else Raise UnicodeDecodeError.

(** Names a directory can hold. *)
Definition valid_name (nm : string) : bool :=
  negb (String.eqb nm "") && negb (String.eqb nm ".") && negb (String.eqb nm "..")
  && match find "/" nm with None => true | Some _ => false end.

End FS.

(** ** The request handler *)

(** What the handler sends: [send_error code], or a response built by
    [send_response], the [send_header] calls and one [wfile.write]. *)
Inductive response : Type :=
| send_error (code : nat)
| send_response (code : nat) (headers : list (string * string)) (body : string).

Definition status (r : response) : nat :=
  match r with
  | send_error code => code
  | send_response code _ _ => code
  end.

(** The state of a [DirectoryHandler]: its [base_dir], and the
    environment it reads: the working directory, the file system, and
    the [markdown] module ([None] when the import fails). *)
Record DirectoryHandler : Type := {
  base_dir : string;
  cwd : string;
  root : FS.node;
  markdown : option (string -> string)
}.

(** An entry of a listing, before it is written as a row. *)
Record entry : Type := {
  entry_icon : string;
  entry_rel : string;
  entry_label : string;
  entry_suffix : string
}.

Definition dq : string := String (ascii_of_nat 34) EmptyString.

Definition ICONS : list (string * string) := [(".md", "📝")].

(** [d.get(key, default)] *)
Fixpoint dict_get (d : list (string * string)) (key default : string) : string :=
  match d with
  | [] => default
  | (k, v) :: t => if String.eqb k key then v else dict_get t key default
  end.

Definition _pretty (name : string) : string :=
  PyStr.title (PyStr.replace "_" " " (PyStr.replace "-" " " name)).

Definition _icon_for (h : DirectoryHandler) (path : string) : string :=
  if FS.isdir (root h) (cwd h) path then "📁"
  else dict_get ICONS (PyStr.lower (Pathlib.suffix path)) "📄".

(** The page templates, cut where a value is put in. *)
Definition page_open : string :=
  "<!DOCTYPE html>
<html>
<head><meta charset=" ++ dq ++ "utf-8" ++ dq ++ ">".

Definition title_tag (title : string) : string :=
  "<title>MD Viewer - " ++ title ++ "</title>".

Definition markdown_style : string :=
  "
<style>
 body{font-family:-apple-system,BlinkMacSystemFont,'Segoe UI',sans-serif;max-width:800px;margin:40px auto;padding:0 20px}
 .nav{margin-bottom:20px;padding-bottom:10px;border-bottom:1px solid #eee}
 .nav a{color:#06c;text-decoration:none}
 pre{background:#f5f5f5;padding:10px;border-radius:4px;overflow-x:auto}
 code{background:#f5f5f5;padding:2px 4px;border-radius:2px}
 blockquote{border-left:4px solid #ddd;margin:0;padding-left:20px;color:#666}
</style></head>
<body>
 <h1>📘 MD Viewer</h1>
 <div class=" ++ dq ++ "nav" ++ dq ++ ">".

Definition back_link : string :=
  "<a href=" ++ dq ++ "/" ++ dq ++ ">← Back to directory</a>".

Definition page_close : string :=
  "
</body></html>".

Definition markdown_page (title body : string) : string :=
  page_open ++ title_tag title ++ markdown_style ++ back_link ++ "</div>
 " ++ body ++ page_close.

Definition serve_markdown (h : DirectoryHandler) (file_path : string)
  : result response :=
  match markdown h with
  | Some render =>
      md <- FS.read_text (root h) (cwd h) file_path ;;
      let body := render md in
      let title := _pretty (PosixPath.basename file_path) in
      Ok (send_response 200 [("Content-type", "text/html")]
            (markdown_page title body))
  | None =>
      content <- FS.read_text (root h) (cwd h) file_path ;;
      Ok (send_response 200 [("Content-type", "text/plain; charset=utf-8")]
            content)
  end.

(** [try: ... except Exception: self.send_error(500)] *)
Definition except_500 (r : result response) : response :=
  match r with
  | Ok resp => resp
  | Raise _ => send_error 500
  end.

Definition serve_file (h : DirectoryHandler) (file_path : string) : response :=
  except_500
    (data <- FS.read_bytes (root h) (cwd h) file_path ;;
     Ok (send_response 200 [("Content-Length", PyStr.str (String.length data))]
           data)).

(** One turn of the loop of [serve_directory]: [None] is [continue]. *)
Definition listing_entry (h : DirectoryHandler) (dir_path item : string)
  : result (option entry) :=
  if PyStr.startswith item "." then Ok None
  else
    let item_path := Pathlib.Path dir_path item in
    if FS.isfile (root h) (cwd h) item_path
       && negb (String.eqb (PyStr.lower (Pathlib.suffix item_path)) ".md")
    then Ok None
    else
      rel <- PosixPath.relpath (cwd h) item_path (base_dir h) ;;
      Ok (Some {| entry_icon := _icon_for h item_path;
                  entry_rel := Urllib.quote rel;
                  entry_label := _pretty item;
                  entry_suffix :=
                    if FS.isdir (root h) (cwd h) item_path then "/" else "" |}).

Fixpoint listing_loop (h : DirectoryHandler) (dir_path : string)
         (items : list string) : result (list entry) :=
  match items with
  | [] => Ok []
  | item :: rest =>
      e <- listing_entry h dir_path item ;;
      es <- listing_loop h dir_path rest ;;
      Ok (match e with Some x => x :: es | None => es end)
  end.

(** The entries of the listing of [dir_path], in the order of the rows. *)
Definition listing (h : DirectoryHandler) (dir_path : string) : result (list entry) :=
  items <- FS.listdir (root h) (cwd h) dir_path ;;
  listing_loop h dir_path (PyStr.sorted items).

Definition row (e : entry) : string :=
  "<li>" ++ entry_icon e ++ " <a href=" ++ dq ++ "/" ++ entry_rel e ++ dq ++ ">"
  ++ entry_label e ++ entry_suffix e ++ "</a></li>".

Definition directory_style : string :=
  "
<style>
 body{font-family:-apple-system,BlinkMacSystemFont,'Segoe UI',sans-serif;margin:40px}
 ul{list-style:none;padding:0}
 li{padding:8px 0;border-bottom:1px solid #f5f5f5}
 a{text-decoration:none;color:#333}
 a:hover{text-decoration:underline}
</style></head>
<body>
 <h1>📘 MD Viewer</h1>
 <h2>📂 ".

Definition directory_page (title : string) (rows : list string) : string :=
  page_open ++ title_tag title ++ directory_style ++ title ++ "</h2>
 <ul>" ++ PyStr.join "" rows ++ "</ul>" ++ page_close.

Definition serve_directory (h : DirectoryHandler) (dir_path : string) : response :=
  except_500
    (entries <- listing h dir_path ;;
     let rows := map row entries in
     current <- PosixPath.relpath (cwd h) dir_path (base_dir h) ;;
     let title := _pretty (if String.eqb current "." then "." else current) in
     Ok (send_response 200 [("Content-type", "text/html")]
           (directory_page title rows))).

(** [file_path] as [do_GET] computes it from the parsed path. *)
Definition file_path_of (h : DirectoryHandler) (parsed_path : string) : string :=
  PosixPath.join2 (base_dir h) (PyStr.lstrip "/" parsed_path).

(** [do_GET] after [urlparse]. *)
Definition dispatch (h : DirectoryHandler) (parsed_path : string)
  : result response :=
  let file_path := file_path_of h parsed_path in
  common <- PosixPath.commonpath (base_dir h) (PosixPath.abspath (cwd h) file_path) ;;
  if negb (String.eqb common (base_dir h)) then Ok (send_error 403)
  else if FS.isfile (root h) (cwd h) file_path then
    if PyStr.endswith file_path ".md" then serve_markdown h file_path
    else Ok (serve_file h file_path)
  else if FS.isdir (root h) (cwd h) file_path then Ok (serve_directory h file_path)
  else Ok (send_error 404).

(** [do_GET] on the request target [self.path].  [Raise] is an exception
    that leaves the handler: no response is written. *)
Definition do_GET (h : DirectoryHandler) (path : string) : result response :=
  dispatch h (Urllib.urlparse_path path).

(** ** Notions the statements use *)

(** The components of a path: what is left between the separators once
    the empty and [.] components are dropped. *)
Definition components (p : string) : list string :=
  filter PosixPath.keep_comp (PyStr.split "/" p).

(** [p] is [root_dir] or lies below it. *)
Definition under (root_dir p : string) : Prop :=
  exists rest, components p = (components root_dir ++ rest)%list.

(** A root as [os.path.abspath] leaves it: a slash, and components
    separated by one slash. *)
Definition canonical (b : string) : Prop :=
  b = "/" ++ PyStr.join "/" (components b).

Definition contains (s t : string) : Prop :=
  exists pre post, s = pre ++ t ++ post.

(** The longest common prefix of two lists. *)
Fixpoint lcp (l1 l2 : list string) : list string :=
  match l1, l2 with
  | x :: t1, y :: t2 => if String.eqb x y then x :: lcp t1 t2 else []
  | _, _ => []
  end.

Definition no_sep (x : string) : Prop := PyStr.find "/" x = None.

(** A plain component: not empty, not [.], without a separator. *)
Definition plain (x : string) : Prop :=
  PosixPath.keep_comp x = true /\ no_sep x.

(** The branches of [do_GET] behind the guard. *)
Definition dispatch_admitted (h : DirectoryHandler) (file_path : string)
  : result response :=
  if FS.isfile (root h) (cwd h) file_path then
    if PyStr.endswith file_path ".md" then serve_markdown h file_path
    else Ok (serve_file h file_path)
  else if FS.isdir (root h) (cwd h) file_path then Ok (serve_directory h file_path)
  else Ok (send_error 404).

(** [int(s)] on a decimal numeral, to read a [Content-Length] back. *)
Definition int_of_str (s : string) : option nat :=
  option_map Nat.of_uint (NilZero.uint_of_string s).

(** What the listing of a directory with entries [es] shows, by name:
    the filter of [serve_directory] read on the entries themselves. *)
Definition shown (es : list (string * FS.node)) (nm : string) : bool :=
  negb (PyStr.startswith nm ".")
  && negb (match FS.lookup nm es with Some (FS.File _) => true | _ => false end
           && negb (String.eqb (PyStr.lower (Pathlib.suffix_of_name nm)) ".md")).

Definition is_dir_node (x : option FS.node) : bool :=
  match x with Some (FS.Dir _) => true | _ => false end.

(** The entry written for the name [nm] of a directory that lies
    [rest] below the root. *)
Definition entry_for (es : list (string * FS.node)) (rest : list string)
           (nm : string) : entry :=
  {| entry_icon :=
       if is_dir_node (FS.lookup nm es) then "📁"
       else dict_get ICONS (PyStr.lower (Pathlib.suffix_of_name nm)) "📄";
     entry_rel := Urllib.quote (PyStr.join "/" (rest ++ [nm])%list);
     entry_label := _pretty nm;
     entry_suffix := if is_dir_node (FS.lookup nm es) then "/" else "" |}.

(** Every name of the list is one a directory can hold. *)
Definition all_valid (l : list string) : Prop :=
  Forall (fun x => FS.valid_name x = true) l.

(** The names [normpath] leaves of an absolute path. *)
Definition normal_names (p : string) : list string :=
  rev (PosixPath.normpath_loop (PosixPath.initial_slashes_of p) []
         (PyStr.split "/" p)).

(** The display name, character by character: a hyphen or an underscore
    becomes a space; a letter is raised when it starts a run of letters
    and lowered inside one. *)
Fixpoint pretty_from (after_letter : bool) (s : string) : string :=
  match s with
  | EmptyString => EmptyString
  | String a s' =>
      String (if Ascii.eqb a "-" || Ascii.eqb a "_" then " "%char
              else if after_letter then PyStr.to_lower a else PyStr.to_upper a)
             (pretty_from (PyStr.is_cased a) s')
  end.

(** A directory without entries of another kind than file or directory. *)
Definition regular (es : list (string * FS.node)) : Prop :=
  forall nm, FS.lookup nm es <> Some FS.Special.

(** The names of the rows, in the order of the rows. *)
Definition listed (es : list (string * FS.node)) : list string :=
  filter (shown es) (PyStr.sorted (map fst es)).

(** The order of [sorted] on names. *)
Definition le_str (x y : string) : Prop := String.leb x y = true.

(** [trail rt names parents cur]: from the root [rt], going down by
    [names] (the last one first) leads to [cur], past [parents]. *)
Inductive trail (rt : FS.node) : list string -> list FS.node -> FS.node -> Prop :=
| trail_root : trail rt [] [] rt
| trail_down (names : list string) (parents : list FS.node)
             (es : list (string * FS.node)) (nm : string) (child : FS.node) :
    trail rt names parents (FS.Dir es) ->
    FS.valid_name nm = true ->
    FS.lookup nm es = Some child ->
    trail rt (nm :: names) (FS.Dir es :: parents) child.

(** [main]: the root directory is [abspath] of the argument, or of [.]
    without one. *)
Definition main_target (wd : string) (argv1 : option string) : string :=
  PosixPath.abspath wd (match argv1 with Some a => a | None => "." end).

(** ** A sample tree

    [/srv/docs] is served; [/etc/passwd] lies outside it. *)

Module Sample.
Import FS.

Definition bad_bytes : string := String (ascii_of_nat 255) EmptyString.

(** The entries of [/srv/docs]; [pipe] is a FIFO. *)
Definition docs_entries : list (string * node) :=
  [ ("my-notes.md", File "# Notes");
    ("NOTES.MD", File "# Upper");
    (".notes.MD", File "# Hidden");
    ("my notes.md", File "# Spaced");
    ("bad.md", File bad_bytes);
    ("data.txt", File "a,b,c");
    ("pipe", Special);
    ("sub", Dir [("my-notes.md", File "# Below")]) ].

Definition docs : node := Dir docs_entries.

Definition tree : node :=
  Dir [ ("srv", Dir [("docs", docs)]);
        ("etc", Dir [("passwd", File "root:x:0:0")]) ].

(** A stand-in for [markdown.markdown]. *)
Definition render (md : string) : string := "<p>" ++ md ++ "</p>".

Definition handler : DirectoryHandler :=
  {| base_dir := "/srv/docs"; cwd := "/srv/docs"; root := tree;
     markdown := Some render |}.

(** The same server when [import markdown] fails. *)
Definition handler_without_markdown : DirectoryHandler :=
  {| base_dir := "/srv/docs"; cwd := "/srv/docs"; root := tree;
     markdown := None |}.

End Sample.

(** ** Startup: [__init__] and [main] *)

#[warnings="-abstract-large-number"]
Definition PORT : nat := 7429.

(** [DirectoryHandler.__init__]: [base_dir or os.getcwd()], in the
    environment the handler will read. *)
Definition __init__ (base_dir_arg : option string) (getcwd : string)
           (rt : FS.node) (md : option (string -> string)) : DirectoryHandler :=
  {| base_dir :=
       match base_dir_arg with
       | Some b => if String.eqb b "" then getcwd else b
       | None => getcwd
       end;
     cwd := getcwd;
     root := rt;
     markdown := md |}.

(** How [main] ends: [sys.exit] after a message, or a server whose
    handlers are [h], with the browser opened at [url]. *)
Inductive startup : Type :=
| sys_exit (code : nat) (printed : string)
| serving (h : DirectoryHandler) (url : string).

(** [main], up to [serve_forever]: [argv] is [sys.argv], [wd] the
    working directory at the start; [os.chdir(target)] makes [target]
    the working directory of the handlers. *)
Definition main (argv : list string) (wd : string) (rt : FS.node)
           (md : option (string -> string)) : startup :=
  let target := main_target wd (nth_error argv 1) in
  if negb (FS.isdir rt wd target) then
    sys_exit 1 ("Error: " ++ target ++ " is not a directory")
  else
    serving (__init__ (Some target) target rt md)
            ("http://localhost:" ++ PyStr.str PORT).

(** A character [quote] can write: one it leaves as it is, or the
    percent sign of an escape. *)
Definition url_char (a : ascii) : bool :=
  Urllib.always_safe a || Ascii.eqb a "%".

(** Every character of [s] satisfies [f]. *)
Fixpoint all_chars (f : ascii -> bool) (s : string) : bool :=
  match s with
  | EmptyString => true
  | String a s' => f a && all_chars f s'
  end.

(** A character of the ASCII range, and a string of such characters:
    the text on which [lower] and [title] above are those of Python. *)
Definition is_ascii (a : ascii) : bool := Nat.ltb (PyStr.code a) 128.

Definition ascii_text (s : string) : Prop := all_chars is_ascii s = true.

(** The strings [parts] occur in [s] one after the other, in this
    order. *)
Fixpoint in_order (parts : list string) (s : string) : Prop :=
  match parts with
  | [] => True
  | part :: rest => exists pre post, s = pre ++ part ++ post /\ in_order rest post
  end.

(** ** A second tree: names that [quote] escapes *)

Module Escaped.
Import FS.

Definition docs_entries : list (string * node) :=
  [ ("annual report.txt", File "q1,q2");
    ("what?.txt", File "who");
    ("MY NOTES.MD", File "# Caps") ].

Definition tree : node := Dir [ ("srv", Dir [("docs", Dir docs_entries)]) ].

Definition handler : DirectoryHandler :=
  {| base_dir := "/srv/docs"; cwd := "/srv/docs"; root := tree;
     markdown := Some Sample.render |}.

End Escaped.

Example title_example : PyStr.title "my notes.md" = "My Notes.Md".
Proof. reflexivity. Qed.

Example split_example : PyStr.split "/" "/a//b/" = [""; "a"; ""; "b"; ""].
Proof. reflexivity. Qed.

Example normpath_example :
  PosixPath.normpath "/srv/docs/../../etc/./passwd" = "/etc/passwd".
Proof. reflexivity. Qed.

Example relpath_example :
  PosixPath.relpath "/" "/srv/docs/a/b.md" "/srv/docs" = Ok "a/b.md".
Proof. reflexivity. Qed.

Example quote_example : Urllib.quote "my notes.md" = "my%20notes.md".
Proof. reflexivity. Qed.

Example suffix_example : Pathlib.suffix "/srv/docs/NOTES.MD" = ".MD".
Proof. reflexivity. Qed.

Example path_example : Pathlib.Path "/srv/docs/" "a.md" = "/srv/docs/a.md".
Proof. reflexivity. Qed.

Example commonpath_example :
  PosixPath.commonpath "/srv/docs" "/etc/passwd" = Ok "/".
Proof. reflexivity. Qed.

Example urlparse_example : Urllib.urlparse_path "/a/b;x?q=1#f" = "/a/b".
Proof. reflexivity. Qed.

Example utf8_example :
  FS.utf8_valid "📝 ok" = true /\ FS.utf8_valid (String (ascii_of_nat 255) "") = false.
Proof. split; reflexivity. Qed.

(** * Properties *)

(** ** Strings *)

Lemma append_assoc (a b c : string) : (a ++ b) ++ c = a ++ b ++ c.
Proof. induction a as [|x a IH]; simpl; [reflexivity | now rewrite IH]. Qed.

Lemma append_nil_r (a : string) : a ++ "" = a.
Proof. induction a as [|x a IH]; simpl; [reflexivity | now rewrite IH]. Qed.

Lemma compare_refl (x : string) : String.compare x x = Eq.
Proof.
  pose proof (String.compare_antisym x x) as H.
  destruct (String.compare x x); simpl in H; congruence.
Qed.

(** ** The order on lists and the common prefix *)

Lemma list_compare_eq (a b : list string) :
  PyStr.list_compare a b = Eq -> a = b.
Proof.
  revert b; induction a as [|x a IH]; intros [|y b]; simpl; try discriminate; auto.
  destruct (String.compare x y) eqn:E; try discriminate.
  apply String.compare_eq_iff in E; subst; intros H; f_equal; auto.
Qed.

Lemma list_compare_antisym (a b : list string) :
  PyStr.list_compare a b = CompOpp (PyStr.list_compare b a).
Proof.
  revert b; induction a as [|x a IH]; intros [|y b]; simpl; auto.
  rewrite (String.compare_antisym y x).
  destruct (String.compare x y); simpl; auto.
Qed.

Lemma list_compare_refl (a : list string) : PyStr.list_compare a a = Eq.
Proof. induction a as [|x a IH]; simpl; [|rewrite compare_refl]; auto. Qed.

Lemma common_loop_le (s1 s2 : list string) :
  PyStr.list_compare s1 s2 <> Gt ->
  PosixPath.common_loop s1 s2 = Ok (lcp s1 s2).
Proof.
  revert s2; induction s1 as [|x s1 IH]; intros [|y s2]; simpl; auto.
  - congruence.
  - destruct (String.eqb_spec x y) as [->|N].
    + rewrite compare_refl; intros H; rewrite (IH _ H); reflexivity.
    + reflexivity.
Qed.

Lemma lcp_comm (a b : list string) : lcp a b = lcp b a.
Proof.
  revert b; induction a as [|x a IH]; intros [|y b]; simpl; auto.
  rewrite (String.eqb_sym y x).
  destruct (String.eqb_spec x y) as [->|N]; [now rewrite IH | reflexivity].
Qed.

Lemma lcp_refl (a : list string) : lcp a a = a.
Proof. induction a as [|x a IH]; simpl; [|rewrite String.eqb_refl, IH]; reflexivity. Qed.

(** [min] and [max] put the two lists in an order in which the loop never
    runs past the end of the second: no [IndexError]. *)
Lemma commonprefix_lcp (a b : list string) :
  PosixPath.commonprefix a b = Ok (lcp a b).
Proof.
  unfold PosixPath.commonprefix, PyStr.min2, PyStr.max2.
  destruct (PyStr.list_compare b a) eqn:E.
  - apply list_compare_eq in E; subst b.
    apply common_loop_le. rewrite list_compare_refl; discriminate.
  - rewrite (lcp_comm a b). apply common_loop_le; congruence.
  - apply common_loop_le. rewrite list_compare_antisym, E; simpl; congruence.
Qed.

Lemma lcp_prefix_l (a b : list string) : exists r, a = (lcp a b ++ r)%list.
Proof.
  revert b; induction a as [|x a IH]; intros b; simpl.
  - exists []; reflexivity.
  - destruct b as [|y b]; [exists (x :: a); reflexivity|].
    destruct (String.eqb x y); [|exists (x :: a); reflexivity].
    destruct (IH b) as [r Hr]. exists r; simpl; congruence.
Qed.

Lemma lcp_prefix_r (a b : list string) : exists r, b = (lcp a b ++ r)%list.
Proof. rewrite lcp_comm; apply lcp_prefix_l. Qed.

Lemma lcp_app (a r : list string) : lcp a (a ++ r) = a.
Proof.
  induction a as [|x a IH]; simpl; [now destruct r|].
  now rewrite String.eqb_refl, IH.
Qed.

(** ** Splitting and joining *)

Lemma split_not_nil (c : ascii) (s : string) : PyStr.split c s <> [].
Proof.
  induction s as [|a s IH]; simpl; [discriminate|].
  destruct (Ascii.eqb a c); [discriminate|].
  destruct (PyStr.split c s); [contradiction | discriminate].
Qed.

Lemma split_no_sep (s : string) : Forall no_sep (PyStr.split "/" s).
Proof.
  induction s as [|a s IH]; simpl.
  - repeat constructor.
  - destruct (Ascii.eqb a "/") eqn:E.
    + constructor; [reflexivity | exact IH].
    + destruct (PyStr.split "/" s) as [|x xs]; [repeat constructor; unfold no_sep; simpl; now rewrite E|].
      inversion IH as [|? ? Hx Hxs]; subst. constructor; [|exact Hxs].
      unfold no_sep in *; simpl; now rewrite E, Hx.
Qed.

Lemma split_plain_id (x : string) : no_sep x -> PyStr.split "/" x = [x].
Proof.
  unfold no_sep. induction x as [|a x IH]; simpl; [reflexivity|].
  destruct (Ascii.eqb a "/"); [discriminate|].
  destruct (PyStr.find "/" x); [discriminate|].
  intros _. now rewrite IH.
Qed.

Lemma split_app_sep (x rest : string) :
  no_sep x ->
  PyStr.split "/" (x ++ String "/" rest) = x :: PyStr.split "/" rest.
Proof.
  unfold no_sep. induction x as [|a x IH]; simpl; [reflexivity|].
  destruct (Ascii.eqb a "/"); [discriminate|].
  destruct (PyStr.find "/" x); [discriminate|].
  intros _. now rewrite IH.
Qed.

Lemma split_join (cs : list string) :
  cs <> [] -> Forall no_sep cs -> PyStr.split "/" (PyStr.join "/" cs) = cs.
Proof.
  induction cs as [|x cs IH]; [congruence|]. intros _ H.
  inversion H as [|? ? Hx Hcs]; subst.
  destruct cs as [|y cs].
  - simpl. now apply split_plain_id.
  - change (PyStr.join "/" (x :: y :: cs)) with (x ++ String "/" (PyStr.join "/" (y :: cs))).
    rewrite split_app_sep by assumption. f_equal. apply IH; [discriminate | assumption].
Qed.

Lemma filter_all {A : Type} (f : A -> bool) (l : list A) :
  Forall (fun x => f x = true) l -> filter f l = l.
Proof. induction 1 as [|x l Hx _ IH]; simpl; [|rewrite Hx, IH]; reflexivity. Qed.

Lemma components_plain (p : string) : Forall plain (components p).
Proof.
  unfold components. pose proof (split_no_sep p) as H.
  induction H as [|x l Hx _ IH]; simpl; [constructor|].
  destruct (PosixPath.keep_comp x) eqn:E; [constructor; [split|]|]; assumption.
Qed.

Lemma plain_keep (cs : list string) :
  Forall plain cs -> Forall (fun x => PosixPath.keep_comp x = true) cs.
Proof. induction 1 as [|x l [Hx _] _ IH]; constructor; assumption. Qed.

Lemma plain_no_sep (cs : list string) : Forall plain cs -> Forall no_sep cs.
Proof. induction 1 as [|x l [_ Hx] _ IH]; constructor; assumption. Qed.

(** Splitting an absolute path written with single slashes gives its
    components back. *)
Lemma components_join (cs : list string) :
  Forall plain cs -> components ("/" ++ PyStr.join "/" cs) = cs.
Proof.
  intros H. unfold components. destruct cs as [|x cs].
  - reflexivity.
  - change (PyStr.split "/" ("/" ++ PyStr.join "/" (x :: cs)))
      with ("" :: PyStr.split "/" (PyStr.join "/" (x :: cs))).
    rewrite split_join; [|discriminate | now apply plain_no_sep].
    change (filter PosixPath.keep_comp ("" :: x :: cs))
      with (filter PosixPath.keep_comp (x :: cs)).
    apply filter_all, plain_keep, H.
Qed.

Lemma Forall_app_l {A : Type} (P : A -> Prop) (l r : list A) :
  Forall P (l ++ r)%list -> Forall P l.
Proof. intros H; apply Forall_app in H; tauto. Qed.

(** ** The containment check *)

Lemma startswith_slash (s : string) :
  PyStr.startswith s "/" = true <-> exists t, s = String "/" t.
Proof.
  destruct s as [|a s]; simpl.
  - split; [discriminate | intros [t H]; discriminate].
  - destruct (Ascii.eqb_spec a "/") as [->|N]; simpl.
    + split; [eexists; reflexivity | reflexivity].
    + split; [discriminate | intros [t H]; congruence].
Qed.

Lemma canonical_isabs (b : string) : canonical b -> PosixPath.isabs b = true.
Proof. intros Hc. apply startswith_slash. rewrite Hc. eexists; reflexivity. Qed.

Lemma commonpath_abs (p1 p2 : string) :
  PosixPath.isabs p1 = true -> PosixPath.isabs p2 = true ->
  PosixPath.commonpath p1 p2
  = Ok ("/" ++ PyStr.join "/" (lcp (components p1) (components p2))).
Proof.
  intros H1 H2.
  pose proof (commonprefix_lcp (components p1) (components p2)) as H.
  unfold PosixPath.commonprefix in H.
  unfold PosixPath.commonpath. rewrite H1, H2. cbv zeta.
  change (filter PosixPath.keep_comp (PyStr.split PosixPath.sep p1)) with (components p1).
  change (filter PosixPath.keep_comp (PyStr.split PosixPath.sep p2)) with (components p2).
  rewrite H. reflexivity.
Qed.

(** If the check lets a path through, the path is under the root. *)
Lemma commonpath_under (b p : string) :
  PosixPath.isabs b = true -> PosixPath.isabs p = true ->
  PosixPath.commonpath b p = Ok b -> under b p.
Proof.
  intros Hb Hp. rewrite commonpath_abs by assumption. intros [= E].
  destruct (lcp_prefix_l (components b) (components p)) as [r Hr].
  destruct (lcp_prefix_r (components b) (components p)) as [r' Hr'].
  assert (Hpl : Forall plain (lcp (components b) (components p))).
  { apply Forall_app_l with (r := r). rewrite <- Hr. apply components_plain. }
  assert (Hc : components b = lcp (components b) (components p)).
  { rewrite <- E at 1. now apply components_join. }
  exists r'. now rewrite Hc at 1.
Qed.

(** A canonical root lets through every path under it. *)
Lemma under_commonpath (b p : string) :
  canonical b -> PosixPath.isabs p = true -> under b p ->
  PosixPath.commonpath b p = Ok b.
Proof.
  intros Hc Hp [r Hr].
  pose proof (canonical_isabs _ Hc) as Hb.
  rewrite commonpath_abs by assumption.
  rewrite Hr, lcp_app. now rewrite <- Hc.
Qed.

Lemma isabs_join2 (a b : string) :
  PosixPath.isabs a = true -> PosixPath.isabs (PosixPath.join2 a b) = true.
Proof.
  intros Ha. unfold PosixPath.join2.
  destruct (PyStr.startswith b "/") eqn:Eb; [exact Eb|].
  apply startswith_slash in Ha as [t ->].
  destruct (_ || _); reflexivity.
Qed.

Lemma initial_slashes_abs (p : string) :
  PosixPath.isabs p = true ->
  exists k, PosixPath.initial_slashes_of p = S k.
Proof.
  intros H. unfold PosixPath.initial_slashes_of.
  unfold PosixPath.isabs in H. rewrite H.
  destruct (_ && _); eexists; reflexivity.
Qed.

Lemma normpath_isabs (p : string) :
  PosixPath.isabs p = true -> PosixPath.isabs (PosixPath.normpath p) = true.
Proof.
  intros H. destruct (initial_slashes_abs p H) as [k Hk].
  unfold PosixPath.normpath. rewrite Hk.
  apply startswith_slash in H as [t ->]. reflexivity.
Qed.

Lemma abspath_isabs (cwd p : string) :
  PosixPath.isabs p = true -> PosixPath.isabs (PosixPath.abspath cwd p) = true.
Proof. intros H. unfold PosixPath.abspath. rewrite H. now apply normpath_isabs. Qed.

Lemma file_path_isabs (h : DirectoryHandler) (parsed_path : string) :
  PosixPath.isabs (base_dir h) = true ->
  PosixPath.isabs (file_path_of h parsed_path) = true.
Proof. apply isabs_join2. Qed.

Lemma dispatch_guard (h : DirectoryHandler) (parsed_path c : string) :
  PosixPath.commonpath (base_dir h)
    (PosixPath.abspath (cwd h) (file_path_of h parsed_path)) = Ok c ->
  dispatch h parsed_path
  = if String.eqb c (base_dir h)
    then dispatch_admitted h (file_path_of h parsed_path)
    else Ok (send_error 403).
Proof.
  intros H. unfold dispatch, dispatch_admitted, bind. rewrite H.
  destruct (String.eqb c (base_dir h)); reflexivity.
Qed.

(** The guard of [do_GET], in terms of [under]. *)
Lemma dispatch_outside (h : DirectoryHandler) (parsed_path : string) :
  PosixPath.isabs (base_dir h) = true ->
  ~ under (base_dir h) (PosixPath.abspath (cwd h) (file_path_of h parsed_path)) ->
  dispatch h parsed_path = Ok (send_error 403).
Proof.
  intros Hb Hout.
  pose proof (abspath_isabs (cwd h) _ (file_path_isabs h parsed_path Hb)) as Hp.
  pose proof (commonpath_under _ _ Hb Hp) as Hu.
  rewrite (dispatch_guard h parsed_path _ (commonpath_abs _ _ Hb Hp)).
  rewrite commonpath_abs in Hu by assumption.
  match goal with |- (if String.eqb ?c ?b then _ else _) = _ =>
    destruct (String.eqb_spec c b) as [E|N]; [|reflexivity] end.
  exfalso. apply Hout, Hu. now rewrite E.
Qed.

Lemma dispatch_inside (h : DirectoryHandler) (parsed_path : string) :
  canonical (base_dir h) ->
  under (base_dir h) (PosixPath.abspath (cwd h) (file_path_of h parsed_path)) ->
  dispatch h parsed_path = dispatch_admitted h (file_path_of h parsed_path).
Proof.
  intros Hc Hu.
  pose proof (canonical_isabs _ Hc) as Hb.
  pose proof (abspath_isabs (cwd h) _ (file_path_isabs h parsed_path Hb)) as Hp.
  rewrite (dispatch_guard h parsed_path _ (under_commonpath _ _ Hc Hp Hu)).
  now rewrite String.eqb_refl.
Qed.

Lemma dispatch_not_403 (h : DirectoryHandler) (parsed_path : string) (r : response) :
  PosixPath.isabs (base_dir h) = true ->
  dispatch h parsed_path = Ok r -> status r <> 403 ->
  under (base_dir h) (PosixPath.abspath (cwd h) (file_path_of h parsed_path)).
Proof.
  intros Hb Hr Hs.
  pose proof (abspath_isabs (cwd h) _ (file_path_isabs h parsed_path Hb)) as Hp.
  apply commonpath_under; try assumption.
  rewrite (dispatch_guard h parsed_path _ (commonpath_abs _ _ Hb Hp)) in Hr.
  rewrite commonpath_abs by assumption.
  match type of Hr with (if String.eqb ?c ?b then _ else _) = _ =>
    destruct (String.eqb_spec c b) as [E|N] end.
  - now rewrite E.
  - injection Hr as <-. now elim Hs.
Qed.

(** ** Serving a file as it is *)

Lemma find_app_sep (c : ascii) (x y : string) :
  PyStr.find c (x ++ String c y) <> None.
Proof.
  induction x as [|a x IH]; simpl.
  - now rewrite Ascii.eqb_refl.
  - destruct (Ascii.eqb a c); [discriminate|].
    destruct (PyStr.find c (x ++ String c y)); [discriminate | contradiction].
Qed.

Lemma rfind_none (c : ascii) (s : string) :
  PyStr.rfind c s = None -> PyStr.find c s = None.
Proof.
  induction s as [|a s IH]; simpl; [reflexivity|].
  destruct (PyStr.rfind c s); [discriminate|].
  destruct (Ascii.eqb a c); [discriminate|].
  intros _. now rewrite IH.
Qed.

(** Where [rfind] finds the last separator, the path is a directory
    part, the separator, and a name without separator. *)
Lemma rfind_some (c : ascii) (s : string) (i : nat) :
  PyStr.rfind c s = Some i ->
  exists pre n, s = pre ++ String c n /\ PyStr.find c n = None
                /\ PyStr.slice_from (S i) s = n.
Proof.
  revert i; induction s as [|a s IH]; simpl; [discriminate|]. intros i.
  destruct (PyStr.rfind c s) as [j|] eqn:E.
  - intros [= <-]. destruct (IH j eq_refl) as (pre & n & -> & Hn & Hs).
    exists (String a pre), n. repeat split; assumption.
  - destruct (Ascii.eqb_spec a c) as [->|N]; [|discriminate].
    intros [= <-]. exists "", s. repeat split. now apply rfind_none.
Qed.

Lemma endswith_app_sep (pre n suf : string) :
  no_sep suf ->
  PyStr.endswith (pre ++ String "/" n) suf = PyStr.endswith n suf.
Proof.
  intros Hs. induction pre as [|a pre IH].
  - cbn [append PyStr.endswith].
    destruct (String.eqb_spec (String "/" n) suf) as [E|_]; [|reflexivity].
    exfalso. subst suf. unfold no_sep in Hs. simpl in Hs. discriminate.
  - cbn [append PyStr.endswith].
    destruct (String.eqb_spec (String a (pre ++ String "/" n)) suf) as [E|_]; [|exact IH].
    exfalso. subst suf. apply (find_app_sep "/" (String a pre) n). exact Hs.
Qed.

(** The test [file_path.endswith(".md")] looks at the name only. *)
Lemma endswith_basename (p suf : string) :
  no_sep suf ->
  PyStr.endswith p suf = PyStr.endswith (PosixPath.basename p) suf.
Proof.
  intros Hs. unfold PosixPath.basename.
  destruct (PyStr.rfind PosixPath.sep p) as [i|] eqn:E; [|reflexivity].
  destruct (rfind_some _ _ _ E) as (pre & n & -> & _ & ->).
  now apply endswith_app_sep.
Qed.

Lemma int_of_str_str (n : nat) : int_of_str (PyStr.str n) = Some n.
Proof.
  unfold int_of_str, PyStr.str.
  pose proof (DecimalNat.Unsigned.of_to n) as H.
  destruct (Nat.to_uint n) eqn:E;
    try (rewrite NilZero.usu by discriminate; simpl; now rewrite H).
  simpl in *. now subst n.
Qed.

Lemma serve_file_of_file (h : DirectoryHandler) (file_path data : string) :
  FS.resolve (root h) (cwd h) file_path = Some (FS.File data) ->
  serve_file h file_path
  = send_response 200 [("Content-Length", PyStr.str (String.length data))] data.
Proof.
  intros H. unfold serve_file, FS.read_bytes. now rewrite H.
Qed.

Lemma isfile_of_file (h : DirectoryHandler) (file_path data : string) :
  FS.resolve (root h) (cwd h) file_path = Some (FS.File data) ->
  FS.isfile (root h) (cwd h) file_path = true.
Proof. intros H. unfold FS.isfile. now rewrite H. Qed.

(** X17.  A request whose path, joined to the root as it is received,
    leads under the root to a regular file whose name does not end in
    [.md] is answered with status 200, a [Content-Length] that is the
    decimal numeral of the size of the file in bytes, and its bytes as
    the body. *)
Theorem other_file_served_raw (h : DirectoryHandler) (path data : string) :
  let file_path := file_path_of h (Urllib.urlparse_path path) in
  canonical (base_dir h) ->
  under (base_dir h) (PosixPath.abspath (cwd h) file_path) ->
  FS.resolve (root h) (cwd h) file_path = Some (FS.File data) ->
  PyStr.endswith (PosixPath.basename file_path) ".md" = false ->
  exists len,
    do_GET h path = Ok (send_response 200 [("Content-Length", len)] data)
    /\ int_of_str len = Some (String.length data).
Proof.
  intros fp Hc Hu Hf Hn.
  exists (PyStr.str (String.length data)). split; [|apply int_of_str_str].
  unfold do_GET. rewrite (dispatch_inside h _ Hc Hu).
  unfold dispatch_admitted. fold fp.
  rewrite (isfile_of_file h fp data Hf).
  rewrite (endswith_basename fp ".md") by reflexivity. rewrite Hn.
  now rewrite (serve_file_of_file h fp data Hf).
Qed.

Lemma other_file_served_raw_witness :
  exists len,
    do_GET Sample.handler "/data.txt"
    = Ok (send_response 200 [("Content-Length", len)] "a,b,c")
    /\ int_of_str len = Some 5.
Proof.
  apply (other_file_served_raw Sample.handler "/data.txt" "a,b,c").
  - reflexivity.
  - exists ["data.txt"]%list. reflexivity.
  - reflexivity.
  - reflexivity.
Defined.

(** ** Rendering Markdown *)

Lemma read_text_of_file (h : DirectoryHandler) (file_path data : string) :
  FS.resolve (root h) (cwd h) file_path = Some (FS.File data) ->
  FS.read_text (root h) (cwd h) file_path
  = if FS.utf8_valid data then Ok (FS.universal_newlines data)
    else Raise UnicodeDecodeError.
Proof. intros H. unfold FS.read_text, FS.read_bytes. now rewrite H. Qed.

Lemma dispatch_markdown (h : DirectoryHandler) (parsed_path data : string) :
  let file_path := file_path_of h parsed_path in
  canonical (base_dir h) ->
  under (base_dir h) (PosixPath.abspath (cwd h) file_path) ->
  FS.resolve (root h) (cwd h) file_path = Some (FS.File data) ->
  PyStr.endswith (PosixPath.basename file_path) ".md" = true ->
  dispatch h parsed_path = serve_markdown h file_path.
Proof.
  intros fp Hc Hu Hf Hn. rewrite (dispatch_inside h _ Hc Hu).
  unfold dispatch_admitted. fold fp.
  rewrite (isfile_of_file h fp data Hf).
  rewrite (endswith_basename fp ".md") by reflexivity. now rewrite Hn.
Qed.

Lemma contains_title (title body : string) :
  contains (markdown_page title body) (title_tag title).
Proof.
  exists page_open. eexists. unfold markdown_page. reflexivity.
Qed.

Lemma contains_back_link (title body : string) :
  contains (markdown_page title body) ("<a href=" ++ dq ++ "/" ++ dq ++ ">").
Proof.
  exists (page_open ++ title_tag title ++ markdown_style).
  exists ("← Back to directory</a></div>
 " ++ body ++ page_close).
  unfold markdown_page, back_link.
  rewrite !append_assoc. reflexivity.
Qed.

(** A request whose path, joined to the root as it is received, leads
    under the root to a Markdown file readable as UTF-8, made while the
    [markdown] module is there, is answered with status 200 and content
    type [text/html]; the body has the prettified name of the file in
    its title and a link back to [/]. *)
Theorem markdown_rendered (h : DirectoryHandler) (path data : string)
        (render : string -> string) :
  let file_path := file_path_of h (Urllib.urlparse_path path) in
  canonical (base_dir h) ->
  under (base_dir h) (PosixPath.abspath (cwd h) file_path) ->
  FS.resolve (root h) (cwd h) file_path = Some (FS.File data) ->
  PyStr.endswith (PosixPath.basename file_path) ".md" = true ->
  FS.utf8_valid data = true ->
  markdown h = Some render ->
  exists body,
    do_GET h path = Ok (send_response 200 [("Content-type", "text/html")] body)
    /\ contains body
         ("<title>MD Viewer - " ++ _pretty (PosixPath.basename file_path) ++ "</title>")
    /\ contains body ("<a href=" ++ dq ++ "/" ++ dq ++ ">").
Proof.
  intros fp Hc Hu Hf Hn Hv Hm.
  exists (markdown_page (_pretty (PosixPath.basename fp))
            (render (FS.universal_newlines data))).
  split; [|split; [apply contains_title | apply contains_back_link]].
  unfold do_GET. rewrite (dispatch_markdown h _ data Hc Hu Hf Hn). fold fp.
  unfold serve_markdown. rewrite Hm, (read_text_of_file h fp data Hf), Hv.
  reflexivity.
Qed.

Lemma markdown_rendered_witness :
  exists body,
    do_GET Sample.handler "/my-notes.md"
    = Ok (send_response 200 [("Content-type", "text/html")] body)
    /\ contains body ("<title>MD Viewer - " ++ "My Notes.Md" ++ "</title>")
    /\ contains body ("<a href=" ++ dq ++ "/" ++ dq ++ ">").
Proof.
  apply (markdown_rendered Sample.handler "/my-notes.md" "# Notes" Sample.render).
  - reflexivity.
  - exists ["my-notes.md"]%list. reflexivity.
  - reflexivity.
  - reflexivity.
  - reflexivity.
  - reflexivity.
Defined.

Lemma universal_newlines_id (s : string) :
  PyStr.find (ascii_of_nat 13) s = None -> FS.universal_newlines s = s.
Proof.
  induction s as [|a s IH]; simpl; [reflexivity|].
  destruct (Ascii.eqb_spec a (ascii_of_nat 13)) as [->|N]; [discriminate|].
  destruct (PyStr.find (ascii_of_nat 13) s); [discriminate|]. intros _.
  destruct (Nat.eqb_spec (PyStr.code a) 13) as [E|_].
  - exfalso. apply N. unfold PyStr.code in E.
    rewrite <- (ascii_nat_embedding a), E. reflexivity.
  - now rewrite IH.
Qed.

(** C8.  A Markdown file requested while [import markdown] fails is
    answered with status 200, a plain-text content type and the text of
    the file as the body: what the text-mode read gives, which is the
    bytes of the file when it holds no carriage return. *)
Theorem C8_plain_text_fallback (h : DirectoryHandler) (path data : string) :
  let file_path := file_path_of h (Urllib.urlparse_path path) in
  canonical (base_dir h) ->
  under (base_dir h) (PosixPath.abspath (cwd h) file_path) ->
  FS.resolve (root h) (cwd h) file_path = Some (FS.File data) ->
  PyStr.endswith (PosixPath.basename file_path) ".md" = true ->
  FS.utf8_valid data = true ->
  markdown h = None ->
  do_GET h path
  = Ok (send_response 200 [("Content-type", "text/plain; charset=utf-8")]
          (FS.universal_newlines data))
  /\ (PyStr.find (ascii_of_nat 13) data = None -> FS.universal_newlines data = data).
Proof.
  intros fp Hc Hu Hf Hn Hv Hm. split; [|apply universal_newlines_id].
  unfold do_GET. rewrite (dispatch_markdown h _ data Hc Hu Hf Hn). fold fp.
  unfold serve_markdown. rewrite Hm, (read_text_of_file h fp data Hf), Hv.
  reflexivity.
Qed.

Lemma C8_witness :
  do_GET Sample.handler_without_markdown "/my-notes.md"
  = Ok (send_response 200 [("Content-type", "text/plain; charset=utf-8")] "# Notes").
Proof.
  apply (C8_plain_text_fallback Sample.handler_without_markdown "/my-notes.md" "# Notes").
  - reflexivity.
  - exists ["my-notes.md"]%list. reflexivity.
  - reflexivity.
  - reflexivity.
  - reflexivity.
  - reflexivity.
Defined.

(** A file that is not UTF-8 makes [serve_markdown] raise, with or
    without the [markdown] module: its [try] catches [ImportError] only. *)
Lemma serve_markdown_undecodable (h : DirectoryHandler) (file_path data : string) :
  FS.resolve (root h) (cwd h) file_path = Some (FS.File data) ->
  FS.utf8_valid data = false ->
  serve_markdown h file_path = Raise UnicodeDecodeError.
Proof.
  intros Hf Hv. unfold serve_markdown.
  rewrite (read_text_of_file h file_path data Hf), Hv.
  destruct (markdown h); reflexivity.
Qed.

(** The two other branches turn every exception into status 500. *)
Lemma except_500_raise (e : pyexc) : except_500 (Raise e) = send_error 500.
Proof. reflexivity. Qed.

(** C4.  For [bad.md], whose bytes are not UTF-8, the request raises
    [UnicodeDecodeError] out of the handler, with the [markdown] module
    and without it: no response with status 500 is sent. *)
Theorem C4_undecodable_markdown_raises :
  FS.resolve Sample.tree "/srv/docs" "/srv/docs/bad.md" = Some (FS.File Sample.bad_bytes)
  /\ FS.utf8_valid Sample.bad_bytes = false
  /\ do_GET Sample.handler "/bad.md" = Raise UnicodeDecodeError
  /\ do_GET Sample.handler_without_markdown "/bad.md" = Raise UnicodeDecodeError.
Proof. repeat split; reflexivity. Qed.

(** ** Resolving the children of a directory *)

Lemma valid_name_spec (nm : string) :
  FS.valid_name nm = true ->
  nm <> "" /\ nm <> "." /\ nm <> ".." /\ no_sep nm.
Proof.
  unfold FS.valid_name, no_sep. intros H.
  apply andb_prop in H as [H H4]. apply andb_prop in H as [H H3].
  apply andb_prop in H as [H1 H2].
  apply negb_true_iff, String.eqb_neq in H1, H2, H3.
  destruct (PyStr.find "/" nm); [discriminate|]. auto.
Qed.

Lemma valid_name_plain (nm : string) : FS.valid_name nm = true -> plain nm.
Proof.
  intros H. destruct (valid_name_spec nm H) as (H1 & H2 & _ & H4).
  split; [|exact H4]. unfold PosixPath.keep_comp, PosixPath.curdir.
  apply String.eqb_neq in H1, H2. now rewrite H1, H2.
Qed.

Lemma walk_name (ps : list FS.node) (es : list (string * FS.node))
      (nm : string) (rest : list string) :
  FS.valid_name nm = true ->
  FS.walk ps (FS.Dir es) (nm :: rest)
  = match FS.lookup nm es with
    | Some child => FS.walk (FS.Dir es :: ps) child rest
    | None => None
    end.
Proof.
  intros H. destruct (valid_name_spec nm H) as (H1 & H2 & H3 & _).
  apply String.eqb_neq in H1, H2, H3. cbn [FS.walk]. now rewrite H1, H2, H3.
Qed.

Lemma walk_skip (ps : list FS.node) (cur : FS.node) (c : string) (rest : list string) :
  PosixPath.keep_comp c = false ->
  FS.walk ps cur (c :: rest)
  = match cur with FS.Dir _ => FS.walk ps cur rest | _ => None end.
Proof.
  unfold PosixPath.keep_comp, PosixPath.curdir. intros H. cbn [FS.walk].
  destruct cur; try reflexivity.
  destruct (String.eqb c ""), (String.eqb c "."); simpl in *; try reflexivity; discriminate.
Qed.

Lemma walk_keep_step (ps : list FS.node) (cur : FS.node) (c : string)
      (rest : list string) :
  PosixPath.keep_comp c = true ->
  FS.walk ps cur (c :: rest)
  = match cur with
    | FS.Dir es =>
        if String.eqb c ".." then
          match ps with
          | [] => FS.walk [] cur rest
          | p :: ps' => FS.walk ps' p rest
          end
        else match FS.lookup c es with
             | Some child => FS.walk (cur :: ps) child rest
             | None => None
             end
    | _ => None
    end.
Proof.
  unfold PosixPath.keep_comp, PosixPath.curdir. intros H. cbn [FS.walk].
  destruct cur; try reflexivity.
  destruct (String.eqb c ""), (String.eqb c "."); simpl in *; try discriminate.
  reflexivity.
Qed.

(** Dropping the empty and [.] components does not change where a path
    that resolves leads. *)
Lemma walk_filter (cs : list string) :
  forall ps cur n,
    FS.walk ps cur cs = Some n ->
    FS.walk ps cur (filter PosixPath.keep_comp cs) = Some n.
Proof.
  induction cs as [|c cs IH]; intros ps cur n H; [exact H|].
  cbn [filter]. destruct (PosixPath.keep_comp c) eqn:E.
  - rewrite walk_keep_step in * by assumption.
    destruct cur as [d|es|]; try discriminate.
    destruct (String.eqb c "..").
    + destruct ps; now apply IH.
    + destruct (FS.lookup c es); [now apply IH | discriminate].
  - rewrite walk_skip in H by assumption.
    destruct cur; try discriminate. now apply IH.
Qed.

(** A last component that is a name looks the name up. *)
Lemma walk_app_name (nm : string) (cs : list string) :
  FS.valid_name nm = true ->
  forall ps cur,
    FS.walk ps cur (cs ++ [nm])%list
    = match FS.walk ps cur cs with
      | Some (FS.Dir es) => FS.lookup nm es
      | _ => None
      end.
Proof.
  intros Hv. induction cs as [|c cs IH]; intros ps cur.
  - cbn [app FS.walk]. destruct cur as [d|es|]; try reflexivity.
    fold (FS.walk ps (FS.Dir es) [nm]). rewrite walk_name by assumption.
    destruct (FS.lookup nm es); reflexivity.
  - cbn [app]. destruct (PosixPath.keep_comp c) eqn:E.
    + rewrite !walk_keep_step by assumption.
      destruct cur as [d|es|]; try reflexivity.
      destruct (String.eqb c "..").
      * destruct ps; apply IH.
      * destruct (FS.lookup c es); [apply IH | reflexivity].
    + rewrite !walk_skip by assumption.
      destruct cur; try reflexivity; apply IH.
Qed.

(** ** The path of an entry: [Path(dir_path, item)] *)

Lemma no_sep_head (a : ascii) (x : string) : no_sep (String a x) -> a <> "/"%char.
Proof.
  unfold no_sep. simpl. destruct (Ascii.eqb_spec a "/"); [discriminate | auto].
Qed.

Lemma valid_name_not_abs (nm : string) :
  FS.valid_name nm = true -> PosixPath.isabs nm = false.
Proof.
  intros H. destruct (valid_name_spec nm H) as (H1 & _ & _ & H4).
  destruct nm as [|a x]; [reflexivity|].
  apply no_sep_head in H4. unfold PosixPath.isabs. simpl.
  destruct (Ascii.eqb_spec a "/"); [contradiction | reflexivity].
Qed.

Lemma parts_name (nm : string) :
  FS.valid_name nm = true -> Pathlib.parts nm = [nm].
Proof.
  intros H. destruct (valid_name_plain nm H) as [Hk Hs].
  unfold Pathlib.parts. change PosixPath.sep with "/"%char.
  rewrite split_plain_id by assumption. simpl. now rewrite Hk.
Qed.

Lemma initial_slashes_cases (p : string) :
  PosixPath.isabs p = true ->
  PosixPath.initial_slashes_of p = 1 \/ PosixPath.initial_slashes_of p = 2.
Proof.
  intros H. unfold PosixPath.initial_slashes_of.
  unfold PosixPath.isabs in H. rewrite H. destruct (_ && _); auto.
Qed.

Lemma repeat_sep_S (k : nat) (x : string) :
  PosixPath.repeat_sep (S k) ++ x = String "/" (PosixPath.repeat_sep k ++ x).
Proof. reflexivity. Qed.

Lemma Path_abs (dir item : string) :
  PosixPath.isabs dir = true -> FS.valid_name item = true ->
  Pathlib.Path dir item
  = PosixPath.repeat_sep (PosixPath.initial_slashes_of dir)
    ++ PyStr.join "/" (components dir ++ [item])%list.
Proof.
  intros Hd Hi. unfold Pathlib.Path.
  rewrite (valid_name_not_abs item Hi), (parts_name item Hi).
  unfold Pathlib.root_of.
  destruct (initial_slashes_abs dir Hd) as [k ->].
  reflexivity.
Qed.

Lemma split_root (k : nat) (cs : list string) :
  cs <> [] -> Forall no_sep cs ->
  PyStr.split "/" (PosixPath.repeat_sep k ++ PyStr.join "/" cs)
  = (repeat "" k ++ cs)%list.
Proof.
  intros Hn Hs. induction k as [|k IH].
  - now apply split_join.
  - rewrite repeat_sep_S. cbn [PyStr.split repeat app].
    rewrite Ascii.eqb_refl. now rewrite IH.
Qed.

Lemma filter_repeat_empty (k : nat) (cs : list string) :
  filter PosixPath.keep_comp (repeat "" k ++ cs)%list
  = filter PosixPath.keep_comp cs.
Proof. induction k as [|k IH]; [reflexivity | exact IH]. Qed.

Lemma Forall_snoc {A : Type} (P : A -> Prop) (l : list A) (x : A) :
  Forall P l -> P x -> Forall P (l ++ [x])%list.
Proof. intros Hl Hx. apply Forall_app; split; [exact Hl | now constructor]. Qed.

Lemma snoc_not_nil {A : Type} (l : list A) (x : A) : (l ++ [x])%list <> [].
Proof. now destruct l. Qed.

Lemma split_Path (dir item : string) :
  PosixPath.isabs dir = true -> FS.valid_name item = true ->
  PyStr.split "/" (Pathlib.Path dir item)
  = (repeat "" (PosixPath.initial_slashes_of dir) ++ components dir ++ [item])%list.
Proof.
  intros Hd Hi. rewrite Path_abs by assumption.
  apply split_root; [apply snoc_not_nil|].
  apply Forall_snoc; [apply plain_no_sep, components_plain|].
  apply (valid_name_plain item Hi).
Qed.

Lemma components_Path (dir item : string) :
  PosixPath.isabs dir = true -> FS.valid_name item = true ->
  components (Pathlib.Path dir item) = (components dir ++ [item])%list.
Proof.
  intros Hd Hi. unfold components at 1. rewrite split_Path by assumption.
  rewrite filter_repeat_empty. apply filter_all, plain_keep.
  apply Forall_snoc; [apply components_plain | apply (valid_name_plain item Hi)].
Qed.

Lemma Path_isabs (dir item : string) :
  PosixPath.isabs dir = true -> FS.valid_name item = true ->
  PosixPath.isabs (Pathlib.Path dir item) = true.
Proof.
  intros Hd Hi. rewrite Path_abs by assumption.
  destruct (initial_slashes_abs dir Hd) as [k ->]. reflexivity.
Qed.

Lemma isabs_not_empty (p : string) : PosixPath.isabs p = true -> String.eqb p "" = false.
Proof. intros H. apply startswith_slash in H as [t ->]. reflexivity. Qed.

Lemma suffix_Path (dir item : string) :
  PosixPath.isabs dir = true -> FS.valid_name item = true ->
  Pathlib.suffix (Pathlib.Path dir item) = Pathlib.suffix_of_name item.
Proof.
  intros Hd Hi. unfold Pathlib.suffix, Pathlib.name.
  change (Pathlib.parts (Pathlib.Path dir item)) with (components (Pathlib.Path dir item)).
  rewrite components_Path by assumption. now rewrite last_last.
Qed.

Lemma walk_nonnil_dir (ps : list FS.node) (cur n : FS.node) (cs : list string) :
  cs <> [] -> FS.walk ps cur cs = Some n -> exists es, cur = FS.Dir es.
Proof.
  destruct cs as [|c cs]; [congruence|]. intros _. cbn [FS.walk].
  destruct cur as [d|es|]; try discriminate. intros _. now exists es.
Qed.

Lemma walk_repeat_empty (ps : list FS.node) (es : list (string * FS.node))
      (k : nat) (cs : list string) :
  FS.walk ps (FS.Dir es) (repeat "" k ++ cs)%list = FS.walk ps (FS.Dir es) cs.
Proof.
  induction k as [|k IH]; [reflexivity|].
  cbn [repeat app]. rewrite walk_skip by reflexivity. exact IH.
Qed.

(** The path of an entry resolves to the entry. *)
Lemma resolve_child (rt : FS.node) (wd dir item : string)
      (es : list (string * FS.node)) :
  PosixPath.isabs dir = true ->
  FS.resolve rt wd dir = Some (FS.Dir es) ->
  FS.valid_name item = true ->
  FS.resolve rt wd (Pathlib.Path dir item) = FS.lookup item es.
Proof.
  intros Hd Hr Hi. unfold FS.resolve in *.
  rewrite (isabs_not_empty _ (Path_isabs dir item Hd Hi)), (Path_isabs dir item Hd Hi).
  rewrite (isabs_not_empty _ Hd), Hd in Hr.
  rewrite split_Path by assumption.
  destruct (walk_nonnil_dir _ _ _ _ (split_not_nil _ _) Hr) as [res ->].
  rewrite walk_repeat_empty, walk_app_name by assumption.
  apply walk_filter in Hr. fold (components dir) in Hr. now rewrite Hr.
Qed.

(** ** [normpath] on absolute paths *)

Lemma normpath_abs (p : string) :
  PosixPath.isabs p = true ->
  PosixPath.normpath p
  = PosixPath.repeat_sep (PosixPath.initial_slashes_of p)
    ++ PyStr.join "/"
         (rev (PosixPath.normpath_loop (PosixPath.initial_slashes_of p) []
                 (PyStr.split "/" p))).
Proof.
  intros H. unfold PosixPath.normpath. rewrite (isabs_not_empty p H).
  destruct (initial_slashes_abs p H) as [k ->]. reflexivity.
Qed.

Lemma normpath_loop_app (k : nat) (cs1 cs2 acc : list string) :
  PosixPath.normpath_loop k acc (cs1 ++ cs2)%list
  = PosixPath.normpath_loop k (PosixPath.normpath_loop k acc cs1) cs2.
Proof.
  revert acc; induction cs1 as [|c cs1 IH]; intros acc; [reflexivity|].
  cbn [app PosixPath.normpath_loop].
  destruct (String.eqb c "" || String.eqb c "."); [apply IH|].
  destruct (_ || _); [apply IH|]. destruct acc; apply IH.
Qed.

Lemma normpath_loop_skip (k : nat) (c : string) (cs acc : list string) :
  PosixPath.keep_comp c = false ->
  PosixPath.normpath_loop k acc (c :: cs) = PosixPath.normpath_loop k acc cs.
Proof.
  unfold PosixPath.keep_comp, PosixPath.curdir. intros H.
  cbn [PosixPath.normpath_loop].
  destruct (String.eqb c ""), (String.eqb c "."); simpl in *; try reflexivity; discriminate.
Qed.

Lemma normpath_loop_filter (k : nat) (cs acc : list string) :
  PosixPath.normpath_loop k acc (filter PosixPath.keep_comp cs)
  = PosixPath.normpath_loop k acc cs.
Proof.
  revert acc; induction cs as [|c cs IH]; intros acc; [reflexivity|].
  cbn [filter]. destruct (PosixPath.keep_comp c) eqn:E.
  - cbn [PosixPath.normpath_loop].
    destruct (String.eqb c "" || String.eqb c "."); [apply IH|].
    destruct (_ || _); [apply IH|]. destruct acc; apply IH.
  - rewrite normpath_loop_skip by assumption. apply IH.
Qed.

Lemma normpath_loop_name (k : nat) (nm : string) (cs acc : list string) :
  FS.valid_name nm = true ->
  PosixPath.normpath_loop k acc (nm :: cs)
  = PosixPath.normpath_loop k (nm :: acc) cs.
Proof.
  intros H. destruct (valid_name_spec nm H) as (H1 & H2 & H3 & _).
  apply String.eqb_neq in H1, H2, H3.
  cbn [PosixPath.normpath_loop]. now rewrite H1, H2, H3.
Qed.

Lemma normpath_loop_names (k : nat) (cs acc : list string) :
  all_valid cs ->
  PosixPath.normpath_loop k acc cs = (rev cs ++ acc)%list.
Proof.
  intros H. revert acc; induction H as [|c cs Hc _ IH]; intros acc; [reflexivity|].
  rewrite normpath_loop_name by assumption. rewrite IH. cbn [rev].
  now rewrite <- app_assoc.
Qed.

Lemma valid_name_intro (c : string) :
  no_sep c -> String.eqb c "" = false -> String.eqb c "." = false ->
  String.eqb c ".." = false -> FS.valid_name c = true.
Proof.
  unfold no_sep, FS.valid_name. intros -> -> -> ->. reflexivity.
Qed.

(** From an absolute path the loop keeps names only: [..] pops, or is
    dropped at the root. *)
Lemma normpath_loop_valid (k : nat) (cs : list string) :
  Forall no_sep cs ->
  forall acc, all_valid acc -> all_valid (PosixPath.normpath_loop (S k) acc cs).
Proof.
  induction 1 as [|c cs Hc _ IH]; intros acc Hacc; [exact Hacc|].
  cbn [PosixPath.normpath_loop].
  destruct (String.eqb c "") eqn:E1; [now apply IH|].
  destruct (String.eqb c ".") eqn:E2; [now apply IH|].
  cbn [orb]. destruct (String.eqb c "..") eqn:E3.
  - cbn [negb orb Nat.eqb andb].
    destruct acc as [|x acc]; [now apply IH|].
    inversion Hacc as [|? ? Hx Hacc']; subst.
    destruct (valid_name_spec x Hx) as (_ & _ & Hx3 & _).
    apply String.eqb_neq in Hx3. rewrite Hx3. now apply IH.
  - cbn [negb orb]. apply IH. constructor; [|exact Hacc].
    now apply valid_name_intro.
Qed.

Lemma all_valid_plain (l : list string) : all_valid l -> Forall plain l.
Proof.
  induction 1 as [|x l Hx _ IH]; constructor; [now apply valid_name_plain | exact IH].
Qed.

Lemma all_valid_rev (l : list string) : all_valid l -> all_valid (rev l).
Proof. apply Forall_rev. Qed.

Lemma split_root_nil (k : nat) :
  PyStr.split "/" (PosixPath.repeat_sep k ++ "") = (repeat "" k ++ [""])%list.
Proof.
  induction k as [|k IH]; [reflexivity|].
  rewrite repeat_sep_S. cbn [PyStr.split repeat app].
  rewrite Ascii.eqb_refl. now rewrite IH.
Qed.

Lemma filter_repeat_empty_ne (k : nat) (cs : list string) :
  filter PosixPath.nonempty (repeat "" k ++ cs)%list
  = filter PosixPath.nonempty cs.
Proof. induction k as [|k IH]; [reflexivity | exact IH]. Qed.

Lemma plain_nonempty (cs : list string) :
  Forall plain cs -> Forall (fun x => PosixPath.nonempty x = true) cs.
Proof.
  induction 1 as [|x l [Hx _] _ IH]; constructor; [|exact IH].
  unfold PosixPath.keep_comp in Hx. unfold PosixPath.nonempty.
  now apply andb_prop in Hx as [-> _].
Qed.

(** The components of a path written as a root and plain components. *)
Lemma components_root_join (k : nat) (cs : list string) :
  Forall plain cs ->
  components (PosixPath.repeat_sep k ++ PyStr.join "/" cs) = cs.
Proof.
  intros H. unfold components. destruct cs as [|c cs].
  - change (PyStr.join "/" []) with "". rewrite split_root_nil.
    now rewrite filter_repeat_empty.
  - rewrite split_root; [|discriminate | now apply plain_no_sep].
    rewrite filter_repeat_empty. apply filter_all, plain_keep, H.
Qed.

Lemma nonempty_root_join (k : nat) (cs : list string) :
  Forall plain cs ->
  filter PosixPath.nonempty
    (PyStr.split "/" (PosixPath.repeat_sep k ++ PyStr.join "/" cs)) = cs.
Proof.
  intros H. destruct cs as [|c cs].
  - change (PyStr.join "/" []) with "". rewrite split_root_nil.
    now rewrite filter_repeat_empty_ne.
  - rewrite split_root; [|discriminate | now apply plain_no_sep].
    rewrite filter_repeat_empty_ne. apply filter_all, plain_nonempty, H.
Qed.

Lemma normal_names_valid (p : string) :
  PosixPath.isabs p = true -> all_valid (normal_names p).
Proof.
  intros H. unfold normal_names. destruct (initial_slashes_abs p H) as [k ->].
  apply all_valid_rev, normpath_loop_valid; [apply split_no_sep | constructor].
Qed.

Lemma components_normpath (p : string) :
  PosixPath.isabs p = true ->
  components (PosixPath.normpath p) = normal_names p.
Proof.
  intros H. rewrite normpath_abs by assumption.
  apply components_root_join, all_valid_plain, normal_names_valid, H.
Qed.

Lemma nonempty_normpath (p : string) :
  PosixPath.isabs p = true ->
  filter PosixPath.nonempty (PyStr.split "/" (PosixPath.normpath p))
  = normal_names p.
Proof.
  intros H. rewrite normpath_abs by assumption.
  apply nonempty_root_join, all_valid_plain, normal_names_valid, H.
Qed.

Lemma join_head (c : string) (t : list string) :
  plain c -> exists a w, PyStr.join "/" (c :: t) = String a w /\ a <> "/"%char.
Proof.
  intros [Hk Hs]. destruct c as [|a c']; [discriminate|].
  apply no_sep_head in Hs. destruct t; simpl; eauto.
Qed.

Lemma initial_slashes_root_join (k : nat) (c : string) (t : list string) :
  k = 1 \/ k = 2 -> plain c ->
  PosixPath.initial_slashes_of (PosixPath.repeat_sep k ++ PyStr.join "/" (c :: t)) = k.
Proof.
  intros Hk Hc. destruct (join_head c t Hc) as (a & w & -> & Ha).
  apply Ascii.eqb_neq in Ha.
  destruct Hk as [-> | ->]; unfold PosixPath.initial_slashes_of; simpl; now rewrite Ha.
Qed.

Lemma initial_slashes_Path (dir item : string) :
  PosixPath.isabs dir = true -> FS.valid_name item = true ->
  PosixPath.initial_slashes_of (Pathlib.Path dir item)
  = PosixPath.initial_slashes_of dir.
Proof.
  intros Hd Hi. rewrite Path_abs by assumption.
  pose proof (components_plain dir) as Hp.
  destruct (components dir) as [|c cs] eqn:E.
  - apply initial_slashes_root_join; [now apply initial_slashes_cases|].
    now apply valid_name_plain.
  - apply initial_slashes_root_join; [now apply initial_slashes_cases|].
    now inversion Hp.
Qed.

(** [normpath] of the path of an entry: the names of the directory, then
    the name of the entry. *)
Lemma normal_names_Path (dir item : string) :
  PosixPath.isabs dir = true -> FS.valid_name item = true ->
  normal_names (Pathlib.Path dir item) = (normal_names dir ++ [item])%list.
Proof.
  intros Hd Hi. unfold normal_names.
  rewrite initial_slashes_Path by assumption.
  rewrite <- (normpath_loop_filter _ (PyStr.split "/" (Pathlib.Path dir item))).
  fold (components (Pathlib.Path dir item)). rewrite components_Path by assumption.
  rewrite normpath_loop_app. unfold components. rewrite normpath_loop_filter.
  rewrite normpath_loop_name by assumption. reflexivity.
Qed.

Lemma initial_slashes_canonical (b : string) :
  canonical b -> PosixPath.initial_slashes_of b = 1.
Proof.
  intros Hc. rewrite Hc. pose proof (components_plain b) as Hp.
  destruct (components b) as [|c cs]; [reflexivity|].
  apply (initial_slashes_root_join 1); [auto | now inversion Hp].
Qed.

(** A canonical root made of names is left as it is by [normpath]. *)
Lemma normal_names_canonical (b : string) :
  canonical b -> all_valid (components b) -> normal_names b = components b.
Proof.
  intros Hc Hv. unfold normal_names.
  rewrite <- normpath_loop_filter. fold (components b).
  rewrite normpath_loop_names by assumption.
  rewrite app_nil_r. apply rev_involutive.
Qed.

Lemma endswith_slash_no_sep (x : string) : no_sep x -> PyStr.endswith x "/" = false.
Proof.
  unfold no_sep. induction x as [|a x IH]; [reflexivity|].
  cbn [PyStr.find]. destruct (Ascii.eqb_spec a "/") as [->|N]; [discriminate|].
  destruct (PyStr.find "/" x); [discriminate|]. intros _.
  cbn [PyStr.endswith].
  destruct (String.eqb_spec (String a x) "/") as [E|_]; [congruence | now apply IH].
Qed.

Lemma endswith_slash_app (w x : string) :
  x <> "" -> PyStr.endswith (w ++ x) "/" = PyStr.endswith x "/".
Proof.
  intros Hx. induction w as [|a w IH]; [reflexivity|].
  cbn [append PyStr.endswith].
  destruct (String.eqb_spec (String a (w ++ x)) "/") as [E|_]; [|exact IH].
  exfalso. injection E as _ E. destruct w; simpl in E; [contradiction | discriminate].
Qed.

Lemma join2_name (a x : string) :
  a <> "" -> PyStr.endswith a "/" = false -> FS.valid_name x = true ->
  PosixPath.join2 a x = a ++ "/" ++ x.
Proof.
  intros Ha He Hx. unfold PosixPath.join2.
  pose proof (valid_name_not_abs x Hx) as Hn. unfold PosixPath.isabs in Hn.
  apply String.eqb_neq in Ha. now rewrite Hn, Ha, He.
Qed.

Lemma fold_join2_names (t : list string) :
  all_valid t ->
  forall a, a <> "" -> PyStr.endswith a "/" = false ->
  fold_left PosixPath.join2 t a
  = a ++ match t with [] => "" | _ => "/" ++ PyStr.join "/" t end.
Proof.
  induction 1 as [|x t Hx Ht IH]; intros a Ha He.
  - now rewrite append_nil_r.
  - cbn [fold_left]. rewrite join2_name by assumption.
    destruct (valid_name_spec x Hx) as (Hx1 & _ & _ & Hx4).
    rewrite IH.
    + rewrite !append_assoc. destruct t; [now rewrite append_nil_r | reflexivity].
    + destruct a; [contradiction | discriminate].
    + rewrite <- append_assoc, endswith_slash_app by assumption.
      now apply endswith_slash_no_sep.
Qed.

(** [os.path.join] of names is the names joined by slashes. *)
Lemma join_all_names (l : list string) :
  all_valid l -> l <> [] -> PosixPath.join_all l = PyStr.join "/" l.
Proof.
  intros H Hn. destruct l as [|a t]; [contradiction|].
  inversion H as [|? ? Ha Ht]; subst. unfold PosixPath.join_all.
  destruct (valid_name_spec a Ha) as (Ha1 & _ & _ & Ha4).
  rewrite fold_join2_names; try assumption; [|now apply endswith_slash_no_sep].
  destruct t; [now rewrite append_nil_r | reflexivity].
Qed.

Lemma skipn_app_exact {A : Type} (l r : list A) : skipn (List.length l) (l ++ r)%list = r.
Proof. induction l as [|x l IH]; [reflexivity | exact IH]. Qed.

(** [relpath] of a path that lies [rest] below the start. *)
Lemma relpath_below (wd p b : string) (rest : list string) :
  PosixPath.isabs p = true -> PosixPath.isabs b = true ->
  normal_names p = (normal_names b ++ rest)%list ->
  PosixPath.relpath wd p b
  = Ok (match rest with [] => "." | _ => PyStr.join "/" rest end).
Proof.
  intros Hp Hb Hr. unfold PosixPath.relpath, PosixPath.abspath.
  rewrite (isabs_not_empty p Hp), Hp, Hb.
  change PosixPath.sep with "/"%char.
  rewrite !nonempty_normpath by assumption.
  rewrite commonprefix_lcp, Hr, lcp_app. unfold bind.
  rewrite Nat.sub_diag, skipn_app_exact. cbn [repeat app].
  destruct rest as [|x rest]; [reflexivity|].
  rewrite join_all_names; [reflexivity | | discriminate].
  pose proof (normal_names_valid p Hp) as Hv. rewrite Hr in Hv.
  apply Forall_app in Hv. tauto.
Qed.

(** [relpath] never raises on a path that is not empty. *)
Lemma relpath_total (wd p b : string) :
  p <> "" -> exists r, PosixPath.relpath wd p b = Ok r.
Proof.
  intros Hp. unfold PosixPath.relpath. apply String.eqb_neq in Hp. rewrite Hp.
  rewrite commonprefix_lcp. unfold bind. destruct (_ ++ _)%list; eauto.
Qed.

(** ** The listing of a directory *)

(** What [under] says about the names [normpath] leaves. *)
Lemma under_normal_names (b dir wd : string) (rest : list string) :
  canonical b -> PosixPath.isabs dir = true ->
  components (PosixPath.abspath wd dir) = (components b ++ rest)%list ->
  normal_names dir = (normal_names b ++ rest)%list.
Proof.
  intros Hc Hd Hu.
  unfold PosixPath.abspath in Hu. rewrite Hd, components_normpath in Hu by assumption.
  rewrite (normal_names_canonical b); [exact Hu | exact Hc|].
  pose proof (normal_names_valid dir Hd) as Hv. rewrite Hu in Hv.
  apply Forall_app in Hv. tauto.
Qed.

Lemma insert_sorted_In (x y : string) (l : list string) :
  In y (PyStr.insert_sorted x l) <-> y = x \/ In y l.
Proof.
  induction l as [|z l IH]; simpl; [intuition|].
  destruct (String.leb x z); simpl; [intuition|]. rewrite IH. intuition.
Qed.

Lemma sorted_In (y : string) (l : list string) : In y (PyStr.sorted l) <-> In y l.
Proof.
  induction l as [|x l IH]; simpl; [tauto|].
  rewrite insert_sorted_In, IH. intuition.
Qed.

Lemma sorted_valid (l : list string) : all_valid l -> all_valid (PyStr.sorted l).
Proof.
  unfold all_valid. rewrite !Forall_forall. intros H x Hx. apply H, sorted_In, Hx.
Qed.

(** The handler [h] lists the directory [dir], whose entries are [es]
    and which lies [rest] below a canonical root. *)
Section Listing.

Variable h : DirectoryHandler.
Variable dir : string.
Variable es : list (string * FS.node).
Variable rest : list string.

Hypothesis root_canonical : canonical (base_dir h).
Hypothesis dir_abs : PosixPath.isabs dir = true.
Hypothesis dir_entries : FS.resolve (root h) (cwd h) dir = Some (FS.Dir es).
Hypothesis dir_below :
  components (PosixPath.abspath (cwd h) dir) = (components (base_dir h) ++ rest)%list.

Lemma isfile_child (item : string) :
  FS.valid_name item = true ->
  FS.isfile (root h) (cwd h) (Pathlib.Path dir item)
  = match FS.lookup item es with Some (FS.File _) => true | _ => false end.
Proof.
  intros Hi. unfold FS.isfile.
  now rewrite (resolve_child _ _ _ _ _ dir_abs dir_entries Hi).
Qed.

Lemma isdir_child (item : string) :
  FS.valid_name item = true ->
  FS.isdir (root h) (cwd h) (Pathlib.Path dir item) = is_dir_node (FS.lookup item es).
Proof.
  intros Hi. unfold FS.isdir.
  now rewrite (resolve_child _ _ _ _ _ dir_abs dir_entries Hi).
Qed.

Lemma relpath_dir :
  PosixPath.relpath (cwd h) dir (base_dir h)
  = Ok (match rest with [] => "." | _ => PyStr.join "/" rest end).
Proof.
  apply relpath_below;
    [exact dir_abs | now apply canonical_isabs | now apply under_normal_names with (cwd h)].
Qed.

Lemma relpath_child (item : string) :
  FS.valid_name item = true ->
  PosixPath.relpath (cwd h) (Pathlib.Path dir item) (base_dir h)
  = Ok (PyStr.join "/" (rest ++ [item])%list).
Proof.
  intros Hi.
  rewrite (relpath_below _ _ _ (rest ++ [item])%list);
    [ | now apply Path_isabs | now apply canonical_isabs | ].
  - destruct rest; reflexivity.
  - rewrite normal_names_Path by assumption.
    rewrite (under_normal_names _ _ _ _ root_canonical dir_abs dir_below).
    now rewrite <- app_assoc.
Qed.

(** One turn of the loop, read on the entries of the directory. *)
Lemma listing_entry_spec (item : string) :
  FS.valid_name item = true ->
  listing_entry h dir item
  = Ok (if shown es item then Some (entry_for es rest item) else None).
Proof.
  intros Hi. unfold listing_entry, shown.
  destruct (PyStr.startswith item "."); [reflexivity|]. cbn [negb andb].
  rewrite (isfile_child item Hi), (suffix_Path dir item dir_abs Hi).
  destruct (_ && _); [reflexivity|]. cbn [negb].
  rewrite (relpath_child item Hi). unfold bind, entry_for, _icon_for.
  rewrite (isdir_child item Hi), (suffix_Path dir item dir_abs Hi).
  reflexivity.
Qed.

Lemma listing_loop_spec (items : list string) :
  all_valid items ->
  listing_loop h dir items
  = Ok (map (entry_for es rest) (filter (shown es) items)).
Proof.
  induction 1 as [|item items Hi _ IH]; [reflexivity|].
  cbn [listing_loop filter]. rewrite (listing_entry_spec item Hi), IH.
  unfold bind. destruct (shown es item); reflexivity.
Qed.

(** The entries of a listing: the names of the directory, sorted, those
    that the filter lets through, each with its icon, link and label. *)
Lemma listing_spec :
  all_valid (map fst es) ->
  listing h dir = Ok (map (entry_for es rest) (listed es)).
Proof.
  intros Hv. unfold listing, FS.listdir. rewrite dir_entries. unfold bind.
  apply listing_loop_spec. now apply sorted_valid.
Qed.

Lemma serve_directory_spec :
  all_valid (map fst es) ->
  serve_directory h dir
  = send_response 200 [("Content-type", "text/html")]
      (directory_page
         (_pretty (match rest with [] => "." | _ => PyStr.join "/" rest end))
         (map row (map (entry_for es rest) (listed es)))).
Proof.
  intros Hv. unfold serve_directory.
  rewrite (listing_spec Hv), relpath_dir. unfold bind, except_500.
  destruct (String.eqb_spec (match rest with [] => "." | _ => PyStr.join "/" rest end) ".")
    as [E|_]; [now rewrite E | reflexivity].
Qed.

End Listing.

(** A request for a directory under the root is answered with its
    listing. *)
Lemma dispatch_directory (h : DirectoryHandler) (parsed_path : string)
      (es : list (string * FS.node)) (rest : list string) :
  let dir := file_path_of h parsed_path in
  canonical (base_dir h) ->
  FS.resolve (root h) (cwd h) dir = Some (FS.Dir es) ->
  components (PosixPath.abspath (cwd h) dir) = (components (base_dir h) ++ rest)%list ->
  all_valid (map fst es) ->
  dispatch h parsed_path
  = Ok (send_response 200 [("Content-type", "text/html")]
          (directory_page
             (_pretty (match rest with [] => "." | _ => PyStr.join "/" rest end))
             (map row (map (entry_for es rest) (listed es))))).
Proof.
  intros dir Hc Hr Hu Hv.
  pose proof (file_path_isabs h parsed_path (canonical_isabs _ Hc)) as Hd. fold dir in Hd.
  rewrite (dispatch_inside h parsed_path Hc (ex_intro _ rest Hu)).
  unfold dispatch_admitted. fold dir.
  unfold FS.isfile, FS.isdir. rewrite Hr.
  now rewrite (serve_directory_spec h dir es rest).
Qed.

(** ** The display name *)

Lemma title_replace (s : string) (b : bool) :
  PyStr.title_from b (PyStr.replace "_" " " (PyStr.replace "-" " " s))
  = pretty_from b s.
Proof.
  revert b; induction s as [|a s IH]; intros b; [reflexivity|].
  cbn [PyStr.replace PyStr.title_from pretty_from].
  destruct (Ascii.eqb_spec a "-") as [->|N1].
  - cbn [orb]. rewrite <- IH. now destruct b.
  - destruct (Ascii.eqb_spec a "_") as [->|N2].
    + cbn [orb]. rewrite <- IH. now destruct b.
    + cbn [orb]. now rewrite IH.
Qed.

Lemma _pretty_pointwise (name : string) : _pretty name = pretty_from false name.
Proof. apply title_replace. Qed.

Lemma pretty_from_length (b : bool) (s : string) :
  String.length (pretty_from b s) = String.length s.
Proof. revert b; induction s as [|a s IH]; intros b; simpl; [|rewrite IH]; reflexivity. Qed.

(** ** Rows in the page *)

Lemma contains_refl (s : string) : contains s s.
Proof. exists "", "". now rewrite append_nil_r. Qed.

Lemma contains_app (a b s t : string) : contains s t -> contains (a ++ s ++ b) t.
Proof.
  intros (pre & post & ->). exists (a ++ pre), (post ++ b).
  now rewrite !append_assoc.
Qed.

Lemma contains_app_r (a s t : string) : contains s t -> contains (a ++ s) t.
Proof.
  intros H. rewrite <- (append_nil_r s). now apply contains_app.
Qed.

Lemma contains_app_l (s b t : string) : contains s t -> contains (s ++ b) t.
Proof. intros H. apply (contains_app "" b s t H). Qed.

Lemma join_contains (x : string) (l : list string) :
  In x l -> contains (PyStr.join "" l) x.
Proof.
  induction l as [|y l IH]; [contradiction|]. intros [->|H].
  - destruct l; [apply contains_refl|].
    change (contains (x ++ "" ++ PyStr.join "" (s :: l)) x).
    apply contains_app_l, contains_refl.
  - destruct l as [|z l]; [contradiction|].
    change (contains (y ++ "" ++ PyStr.join "" (z :: l)) x).
    apply contains_app_r, contains_app_r, IH, H.
Qed.

Lemma directory_page_contains (title r : string) (rows : list string) :
  In r rows -> contains (directory_page title rows) r.
Proof.
  intros H. unfold directory_page.
  do 5 apply contains_app_r. apply contains_app_l, join_contains, H.
Qed.

(** ** The suffix of a name *)

Lemma to_lower_dot (a : ascii) : PyStr.to_lower a = "."%char -> a = "."%char.
Proof.
  destruct a as [[] [] [] [] [] [] [] []]; vm_compute; intros H;
    try reflexivity; discriminate H.
Qed.

Lemma to_lower_not_dot (a : ascii) (c : ascii) :
  PyStr.to_lower a = c -> c <> "."%char -> a <> "."%char.
Proof. intros H Hc ->. apply Hc. now rewrite <- H. Qed.

(** A name whose lowered form ends in [.md] is a stem and three
    characters, a dot and the two letters in either case. *)
Lemma endswith_lower_md (nm : string) :
  PyStr.endswith (PyStr.lower nm) ".md" = true ->
  exists stem x y,
    nm = stem ++ String "." (String x (String y ""))
    /\ PyStr.to_lower x = "m"%char /\ PyStr.to_lower y = "d"%char.
Proof.
  induction nm as [|a nm IH].
  - cbn. discriminate.
  - cbn [PyStr.lower PyStr.endswith].
    destruct (String.eqb_spec (String (PyStr.to_lower a) (PyStr.lower nm)) ".md") as [E|_].
    + intros _. destruct nm as [|x [|y [|z nm]]]; try discriminate E.
      injection E as Ea Ex Ey. apply to_lower_dot in Ea. subst a.
      exists "", x, y. auto.
    + intros H. destruct (IH H) as (stem & x & y & -> & Hx & Hy).
      exists (String a stem), x, y. auto.
Qed.

Lemma rfind_stem (stem : string) (x y : ascii) :
  x <> "."%char -> y <> "."%char ->
  PyStr.rfind "." (stem ++ String "." (String x (String y "")))
  = Some (String.length stem).
Proof.
  intros Hx Hy. apply Ascii.eqb_neq in Hx, Hy.
  induction stem as [|a stem IH]; cbn [append PyStr.rfind String.length].
  - now rewrite Hx, Hy.
  - now rewrite IH.
Qed.

Lemma slice_from_app (stem t : string) :
  PyStr.slice_from (String.length stem) (stem ++ t) = t.
Proof. induction stem as [|a stem IH]; [now destruct t | exact IH]. Qed.

Lemma length_app (a b : string) :
  String.length (a ++ b) = String.length a + String.length b.
Proof. induction a as [|x a IH]; simpl; [|rewrite IH]; reflexivity. Qed.

(** For a name that does not start with a dot, the filter's test
    [suffix.lower() == ".md"] holds as soon as the lowered name ends in
    [.md]. *)
Lemma suffix_lower_md (nm : string) :
  PyStr.startswith nm "." = false ->
  PyStr.endswith (PyStr.lower nm) ".md" = true ->
  PyStr.lower (Pathlib.suffix_of_name nm) = ".md".
Proof.
  intros Hh He. destruct (endswith_lower_md nm He) as (stem & x & y & -> & Hx & Hy).
  unfold Pathlib.suffix_of_name.
  rewrite rfind_stem;
    [ | apply (to_lower_not_dot x _ Hx); discriminate
      | apply (to_lower_not_dot y _ Hy); discriminate ].
  rewrite length_app, slice_from_app.
  destruct stem as [|a stem]; [discriminate Hh|].
  cbn [String.length].
  replace (Nat.ltb 0 (S (String.length stem))) with true by reflexivity.
  replace (Nat.ltb (S (String.length stem)) (S (String.length stem) + 3 - 1)) with true
    by (symmetry; apply Nat.ltb_lt; lia).
  cbn [andb PyStr.lower]. now rewrite Hx, Hy.
Qed.

(** ** Which entries a listing has *)

Lemma lookup_In (nm : string) (es : list (string * FS.node)) (x : FS.node) :
  FS.lookup nm es = Some x -> In nm (map fst es).
Proof.
  induction es as [|[n y] es IH]; [discriminate|]. cbn [FS.lookup map fst].
  destruct (String.eqb_spec n nm) as [->|N]; [left; reflexivity | right; auto].
Qed.

Lemma In_lookup (nm : string) (es : list (string * FS.node)) :
  In nm (map fst es) -> exists x, FS.lookup nm es = Some x.
Proof.
  induction es as [|[n y] es IH]; [contradiction|]. cbn [FS.lookup map fst].
  destruct (String.eqb_spec n nm) as [->|N]; [eauto|].
  intros [E|H]; [contradiction | auto].
Qed.

Lemma listed_In (es : list (string * FS.node)) (nm : string) :
  In nm (listed es) <-> In nm (map fst es) /\ shown es nm = true.
Proof. unfold listed. now rewrite filter_In, sorted_In. Qed.

Lemma entry_listed (es : list (string * FS.node)) (rest : list string)
      (nm : string) (x : FS.node) :
  FS.lookup nm es = Some x -> shown es nm = true ->
  In (entry_for es rest nm) (map (entry_for es rest) (listed es)).
Proof.
  intros Hl Hs. apply in_map, listed_In. split; [now apply lookup_In with x | exact Hs].
Qed.

(** A Markdown file that is not hidden is shown, with the Markdown icon. *)
Lemma shown_markdown (es : list (string * FS.node)) (nm data : string) :
  FS.lookup nm es = Some (FS.File data) ->
  PyStr.startswith nm "." = false ->
  PyStr.lower (Pathlib.suffix_of_name nm) = ".md" ->
  shown es nm = true
  /\ forall rest, entry_for es rest nm
       = {| entry_icon := "📝";
            entry_rel := Urllib.quote (PyStr.join "/" (rest ++ [nm])%list);
            entry_label := _pretty nm;
            entry_suffix := "" |}.
Proof.
  intros Hl Hh Hs. unfold shown, entry_for. rewrite Hl, Hh, Hs. split; reflexivity.
Qed.

(** In a directory of files and directories, the filter is the one the
    comment in [serve_directory] words: directories always, files only
    if [.md]. *)
Lemma shown_regular (es : list (string * FS.node)) (nm : string) :
  regular es -> In nm (map fst es) ->
  shown es nm
  = negb (PyStr.startswith nm ".")
    && (is_dir_node (FS.lookup nm es)
        || String.eqb (PyStr.lower (Pathlib.suffix_of_name nm)) ".md").
Proof.
  intros Hr Hin. destruct (In_lookup nm es Hin) as [x Hx].
  unfold shown. specialize (Hr nm). rewrite Hx in *.
  destruct x as [d|sub|]; [| |congruence]; cbn [is_dir_node andb orb negb].
  - now rewrite negb_involutive.
  - reflexivity.
Qed.

(** There, every icon is the folder or the Markdown one. *)
Lemma icon_regular (es : list (string * FS.node)) (rest : list string) (nm : string) :
  regular es -> In nm (listed es) ->
  entry_icon (entry_for es rest nm) = "📁"
  \/ entry_icon (entry_for es rest nm) = "📝".
Proof.
  intros Hr Hin. apply listed_In in Hin as [Hin Hs].
  rewrite (shown_regular es nm Hr Hin) in Hs.
  apply andb_prop in Hs as [_ Hs]. cbn [entry_for entry_icon].
  destruct (is_dir_node (FS.lookup nm es)); [now left|].
  cbn [orb] in Hs. apply String.eqb_eq in Hs. rewrite Hs. now right.
Qed.

(** C2.  In the listing of a directory with a file [my-notes.md], the
    entry of the file has the label [My Notes.Md]: the extension is part
    of the label.  Its link is [/], then the quoted path of the file from
    the root, which is [/my-notes.md] when the directory is the root.
    The display name of a name of ASCII characters has a space for each
    hyphen and underscore, a capital at the start of every run of
    letters and small letters inside it. *)
Theorem C2_label_keeps_extension (h : DirectoryHandler) (path data : string)
        (es : list (string * FS.node)) (rest : list string) :
  let dir := file_path_of h (Urllib.urlparse_path path) in
  let e := {| entry_icon := "📝";
              entry_rel := Urllib.quote (PyStr.join "/" (rest ++ ["my-notes.md"])%list);
              entry_label := "My Notes.Md";
              entry_suffix := "" |} in
  canonical (base_dir h) ->
  FS.resolve (root h) (cwd h) dir = Some (FS.Dir es) ->
  components (PosixPath.abspath (cwd h) dir) = (components (base_dir h) ++ rest)%list ->
  all_valid (map fst es) ->
  FS.lookup "my-notes.md" es = Some (FS.File data) ->
  (exists l, listing h dir = Ok l /\ In e l)
  /\ (exists body,
        do_GET h path = Ok (send_response 200 [("Content-type", "text/html")] body)
        /\ contains body (row e))
  /\ (rest = [] ->
      row e = "<li>📝 <a href=" ++ dq ++ "/my-notes.md" ++ dq ++ ">My Notes.Md</a></li>")
  /\ (forall name, ascii_text name -> _pretty name = pretty_from false name).
Proof.
  intros dir e Hc Hr Hu Hv Hl.
  pose proof (canonical_isabs _ Hc) as Hb.
  pose proof (file_path_isabs h (Urllib.urlparse_path path) Hb) as Hd. fold dir in Hd.
  destruct (shown_markdown es "my-notes.md" data Hl eq_refl eq_refl) as [Hs He].
  assert (Hin : In e (map (entry_for es rest) (listed es))).
  { unfold e. change "My Notes.Md" with (_pretty "my-notes.md").
    rewrite <- (He rest). now apply entry_listed with (FS.File data). }
  repeat split.
  - eexists. split; [now apply (listing_spec h dir es rest) | exact Hin].
  - eexists. split.
    + unfold do_GET. now apply (dispatch_directory h _ es rest).
    + apply directory_page_contains, in_map, Hin.
  - intros ->. reflexivity.
  - intros name _. apply _pretty_pointwise.
Qed.

Lemma C2_witness :
  (exists body,
     do_GET Sample.handler "/"
     = Ok (send_response 200 [("Content-type", "text/html")] body)
     /\ contains body
          ("<li>📝 <a href=" ++ dq ++ "/my-notes.md" ++ dq ++ ">My Notes.Md</a></li>"))
  /\ _pretty "my-notes.md" = pretty_from false "my-notes.md".
Proof.
  destruct (C2_label_keeps_extension Sample.handler "/" "# Notes"
              Sample.docs_entries [])
    as (_ & H & _ & Hp).
  - reflexivity.
  - reflexivity.
  - reflexivity.
  - repeat constructor.
  - reflexivity.
  - split; [exact H | apply Hp; reflexivity].
Defined.

(** On the sample tree no entry of the listing of the root has the label
    [My Notes], and in the directory [sub] no entry has the link
    [/my-notes.md]. *)
Lemma C2_counterexample :
  FS.resolve Sample.tree "/srv/docs" "/srv/docs/my-notes.md" = Some (FS.File "# Notes")
  /\ FS.resolve Sample.tree "/srv/docs" "/srv/docs/sub/my-notes.md"
     = Some (FS.File "# Below")
  /\ (exists l, listing Sample.handler "/srv/docs/" = Ok l
        /\ ~ exists e, In e l /\ entry_label e = "My Notes")
  /\ (exists l, listing Sample.handler "/srv/docs/sub" = Ok l
        /\ ~ exists e, In e l /\ "/" ++ entry_rel e = "/my-notes.md").
Proof.
  split; [reflexivity|]. split; [reflexivity|]. split.
  - eexists. split; [vm_compute; reflexivity|].
    intros (e & Hin & Hl). simpl in Hin.
    repeat (destruct Hin as [<-|Hin]; [discriminate Hl|]). exact Hin.
  - eexists. split; [vm_compute; reflexivity|].
    intros (e & Hin & Hl). simpl in Hin.
    repeat (destruct Hin as [<-|Hin]; [discriminate Hl|]). exact Hin.
Qed.

(** ** The order of the rows *)

Lemma ascii_compare_refl (a : ascii) : Ascii.compare a a = Eq.
Proof. unfold Ascii.compare. apply N.compare_refl. Qed.

Lemma ascii_compare_lt_trans (a b c : ascii) :
  Ascii.compare a b = Lt -> Ascii.compare b c = Lt -> Ascii.compare a c = Lt.
Proof.
  unfold Ascii.compare. rewrite !N.compare_lt_iff. apply N.lt_trans.
Qed.

Lemma compare_le_trans (s1 : string) :
  forall s2 s3,
    String.compare s1 s2 <> Gt -> String.compare s2 s3 <> Gt ->
    String.compare s1 s3 <> Gt.
Proof.
  induction s1 as [|a s1 IH]; intros [|b s2] [|c s3]; simpl; try congruence.
  destruct (Ascii.compare a b) eqn:Eab; try congruence;
    destruct (Ascii.compare b c) eqn:Ebc; try congruence.
  - apply Ascii.compare_eq_iff in Eab, Ebc. subst.
    rewrite ascii_compare_refl. apply IH.
  - apply Ascii.compare_eq_iff in Eab. subst. now rewrite Ebc.
  - apply Ascii.compare_eq_iff in Ebc. subst. now rewrite Eab.
  - now rewrite (ascii_compare_lt_trans a b c Eab Ebc).
Qed.

Lemma le_str_trans (x y z : string) : le_str x y -> le_str y z -> le_str x z.
Proof.
  unfold le_str, String.leb. intros H1 H2.
  pose proof (compare_le_trans x y z) as H.
  destruct (String.compare x y); try discriminate;
    destruct (String.compare y z); try discriminate;
    destruct (String.compare x z); try reflexivity;
    exfalso; apply H; congruence.
Qed.

Lemma insert_sorted_sorted (x : string) (l : list string) :
  StronglySorted le_str l -> StronglySorted le_str (PyStr.insert_sorted x l).
Proof.
  induction 1 as [|y l Hl IH Hy]; simpl.
  - repeat constructor.
  - destruct (String.leb x y) eqn:E.
    + constructor; [now constructor|]. constructor; [exact E|].
      eapply Forall_impl; [|exact Hy]. intros z Hz. now apply le_str_trans with y.
    + constructor; [exact IH|]. apply Forall_forall. intros z Hz.
      apply insert_sorted_In in Hz as [->|Hz].
      * destruct (String.leb_total x y) as [H|H]; [congruence | exact H].
      * rewrite Forall_forall in Hy. now apply Hy.
Qed.

Lemma sorted_sorted (l : list string) : StronglySorted le_str (PyStr.sorted l).
Proof.
  induction l as [|x l IH]; simpl; [constructor | now apply insert_sorted_sorted].
Qed.

Lemma filter_sorted (f : string -> bool) (l : list string) :
  StronglySorted le_str l -> StronglySorted le_str (filter f l).
Proof.
  induction 1 as [|y l Hl IH Hy]; simpl; [constructor|].
  destruct (f y); [|exact IH]. constructor; [exact IH|].
  apply Forall_forall. intros z Hz. apply filter_In in Hz as [Hz _].
  rewrite Forall_forall in Hy. now apply Hy.
Qed.

(** The rows come in the order of their names. *)
Lemma listed_sorted (es : list (string * FS.node)) : StronglySorted le_str (listed es).
Proof. apply filter_sorted, sorted_sorted. Qed.

(** In a directory of regular files and directories, the names the
    listing shows are the directories and the [.md] files that are not
    hidden, in order: the part of C3 that holds. *)
Lemma listing_regular_exact (h : DirectoryHandler) (dir : string)
      (es : list (string * FS.node)) (rest : list string) :
  canonical (base_dir h) -> PosixPath.isabs dir = true ->
  FS.resolve (root h) (cwd h) dir = Some (FS.Dir es) ->
  components (PosixPath.abspath (cwd h) dir) = (components (base_dir h) ++ rest)%list ->
  all_valid (map fst es) -> regular es ->
  listing h dir = Ok (map (entry_for es rest) (listed es))
  /\ StronglySorted le_str (listed es)
  /\ forall nm,
       In nm (listed es)
       <-> In nm (map fst es)
           /\ PyStr.startswith nm "." = false
           /\ (is_dir_node (FS.lookup nm es) = true
               \/ PyStr.lower (Pathlib.suffix_of_name nm) = ".md").
Proof.
  intros Hc Hd Hr Hu Hv Hreg. split; [now apply listing_spec|].
  split; [apply listed_sorted|]. intros nm. rewrite listed_In.
  split.
  - intros [Hin Hs]. rewrite (shown_regular es nm Hreg Hin) in Hs.
    apply andb_prop in Hs as [H1 H2]. apply negb_true_iff in H1.
    apply orb_prop in H2. rewrite String.eqb_eq in H2. auto.
  - intros (Hin & H1 & H2). split; [exact Hin|].
    rewrite (shown_regular es nm Hreg Hin), H1. cbn [negb andb].
    apply orb_true_iff. rewrite String.eqb_eq. exact H2.
Qed.

(** C3.  The listing of the sample root has a row for [pipe], an entry
    that is neither a directory nor a regular file, next to the rows of
    the directories and [.md] files. *)
Theorem C3_special_entry_listed :
  FS.resolve Sample.tree "/srv/docs" "/srv/docs/pipe" = Some FS.Special
  /\ FS.isdir Sample.tree "/srv/docs" "/srv/docs/pipe" = false
  /\ FS.isfile Sample.tree "/srv/docs" "/srv/docs/pipe" = false
  /\ exists l,
       listing Sample.handler (file_path_of Sample.handler "/") = Ok l
       /\ map entry_rel l
          = ["NOTES.MD"; "bad.md"; "my%20notes.md"; "my-notes.md"; "pipe"; "sub"].
Proof.
  repeat split. eexists. split; vm_compute; reflexivity.
Qed.

(** C9.  The page served for the sample root has a row with the generic
    document icon, the one of [pipe]. *)
Theorem C9_generic_icon_in_listing :
  exists body,
    do_GET Sample.handler "/"
    = Ok (send_response 200 [("Content-type", "text/html")] body)
    /\ contains body ("<li>📄 <a href=" ++ dq ++ "/pipe" ++ dq ++ ">Pipe</a></li>").
Proof.
  eexists. split; [vm_compute; reflexivity|].
  apply (directory_page_contains "." _
           (map row (map (entry_for
              Sample.docs_entries [])
              ["NOTES.MD"; "bad.md"; "my notes.md"; "my-notes.md"; "pipe"; "sub"]))).
  vm_compute. tauto.
Qed.

(** C5.  The sample root holds the file [my notes.md]; its listing links
    it as [/my%20notes.md]; the request for that link is answered with
    404, the request path being joined to the root as it is. *)
Theorem C5_quoted_link_not_found :
  FS.isfile Sample.tree "/srv/docs" "/srv/docs/my notes.md" = true
  /\ (exists l,
        listing Sample.handler (file_path_of Sample.handler "/") = Ok l
        /\ In (Urllib.quote "my notes.md") (map entry_rel l))
  /\ Urllib.quote "my notes.md" = "my%20notes.md"
  /\ file_path_of Sample.handler (Urllib.urlparse_path "/my%20notes.md")
     = "/srv/docs/my%20notes.md"
  /\ do_GET Sample.handler "/my%20notes.md" = Ok (send_error 404).
Proof.
  split; [reflexivity|]. split.
  - eexists. split; [vm_compute; reflexivity|]. vm_compute. tauto.
  - repeat split.
Qed.


(** On the sample tree [.notes.MD] is a regular file whose name ends in a
    case variant of [.md], and the listing of its directory has no entry
    for it. *)
Lemma C10_counterexample :
  FS.resolve Sample.tree "/srv/docs" "/srv/docs/.notes.MD" = Some (FS.File "# Hidden")
  /\ PyStr.endswith (PyStr.lower ".notes.MD") ".md" = true
  /\ PyStr.endswith ".notes.MD" ".md" = false
  /\ exists l,
       listing Sample.handler "/srv/docs/" = Ok l
       /\ ~ exists e, In e l /\ entry_rel e = Urllib.quote ".notes.MD".
Proof.
  repeat split. eexists. split; [vm_compute; reflexivity|].
  intros (e & Hin & Hl). simpl in Hin.
  repeat (destruct Hin as [<-|Hin]; [discriminate Hl|]). exact Hin.
Qed.

(** Where [quote] changes nothing the link leads back to the entry: a
    name of unreserved characters is its own link. *)
Lemma quote_safe (s : string) :
  (forall i a, String.get i s = Some a -> Urllib.always_safe a = true) ->
  Urllib.quote s = s.
Proof.
  induction s as [|a s IH]; intros H; [reflexivity|].
  cbn [Urllib.quote]. rewrite (H 0 a eq_refl). f_equal.
  apply IH. intros i b Hb. apply (H (S i) b). exact Hb.
Qed.

(** ** The canonical path and the file that is opened *)

Lemma trail_nil_parents (rt cur : FS.node) (names : list string) :
  trail rt names [] cur -> names = [] /\ cur = rt.
Proof. inversion 1; auto. Qed.

Lemma trail_names_valid (rt cur : FS.node) (names : list string) (ps : list FS.node) :
  trail rt names ps cur -> all_valid names.
Proof. induction 1; constructor; assumption. Qed.

(** Going down by the names from the root is what the trail says. *)
Lemma trail_walk (rt cur : FS.node) (names : list string) (ps : list FS.node) :
  trail rt names ps cur -> FS.walk [] rt (rev names) = Some cur.
Proof.
  induction 1 as [|names ps es nm child _ IH Hv Hl]; [reflexivity|].
  cbn [rev]. rewrite walk_app_name by assumption. now rewrite IH.
Qed.

(** The kernel and [normpath] agree: when the components [cs] resolve
    from a place reached by [names], the names [normpath] keeps lead to
    the same node. *)
Lemma walk_normpath_loop (rt : FS.node) (k : nat) (cs : list string) :
  Forall no_sep cs ->
  forall names ps cur n,
    trail rt names ps cur ->
    FS.walk ps cur cs = Some n ->
    exists ps', trail rt (PosixPath.normpath_loop (S k) names cs) ps' n.
Proof.
  induction 1 as [|c cs Hc _ IH]; intros names ps cur n Ht Hw.
  - injection Hw as <-. now exists ps.
  - cbn [FS.walk] in Hw. destruct cur as [d|es|]; try discriminate.
    cbn [PosixPath.normpath_loop].
    destruct (String.eqb c "") eqn:E1; [now apply (IH names ps (FS.Dir es))|].
    destruct (String.eqb c ".") eqn:E2; [now apply (IH names ps (FS.Dir es))|].
    cbn [orb] in *. destruct (String.eqb c "..") eqn:E3.
    + cbn [negb orb Nat.eqb andb].
      destruct ps as [|p ps].
      * destruct (trail_nil_parents _ _ _ Ht) as [-> _].
        now apply (IH [] [] (FS.Dir es)).
      * inversion Ht as [|names' ps' es' nm child Ht' Hv Hl]; subst.
        destruct (valid_name_spec nm Hv) as (_ & _ & Hn3 & _).
        apply String.eqb_neq in Hn3. rewrite Hn3.
        now apply (IH names' ps (FS.Dir es')).
    + cbn [negb orb].
      destruct (FS.lookup c es) as [child|] eqn:El; [|discriminate].
      apply (IH (c :: names) (FS.Dir es :: ps) child); [|exact Hw].
      apply trail_down; [exact Ht | now apply valid_name_intro | exact El].
Qed.

(** What an absolute path resolves to, its canonical form resolves to:
    the tree has no symbolic links. *)
Lemma resolve_normpath (rt : FS.node) (wd p : string) (n : FS.node) :
  PosixPath.isabs p = true ->
  FS.resolve rt wd p = Some n ->
  FS.resolve rt wd (PosixPath.normpath p) = Some n.
Proof.
  intros Hp Hr. unfold FS.resolve in *.
  pose proof (normpath_isabs p Hp) as Hq.
  rewrite (isabs_not_empty _ Hq), Hq. rewrite (isabs_not_empty _ Hp), Hp in Hr.
  destruct (walk_nonnil_dir _ _ _ _ (split_not_nil _ _) Hr) as [res ->].
  rewrite normpath_abs by assumption.
  destruct (initial_slashes_abs p Hp) as [k Hk]. rewrite Hk.
  destruct (walk_normpath_loop (FS.Dir res) k _ (split_no_sep p) [] [] _ n
              (trail_root _) Hr) as [ps' Ht].
  pose proof (trail_walk _ _ _ _ Ht) as Hw.
  pose proof (trail_names_valid _ _ _ _ Ht) as Hv.
  destruct (rev (PosixPath.normpath_loop (S k) [] (PyStr.split "/" p))) as [|c cs] eqn:E.
  - change (PyStr.join "/" []) with "". rewrite split_root_nil, walk_repeat_empty.
    rewrite walk_skip by reflexivity. exact Hw.
  - rewrite split_root, walk_repeat_empty; [exact Hw | discriminate|].
    apply plain_no_sep, all_valid_plain. rewrite <- E. now apply all_valid_rev.
Qed.

(** ** The root directory [main] hands to the handler *)

Lemma abspath_any_isabs (wd a : string) :
  PosixPath.isabs wd = true -> PosixPath.isabs (PosixPath.abspath wd a) = true.
Proof.
  intros H. unfold PosixPath.abspath. apply normpath_isabs.
  destruct (PosixPath.isabs a) eqn:E; [exact E | now apply isabs_join2].
Qed.

Lemma main_target_isabs (wd : string) (argv1 : option string) :
  PosixPath.isabs wd = true -> PosixPath.isabs (main_target wd argv1) = true.
Proof. apply abspath_any_isabs. Qed.

Lemma normpath_canonical (p : string) :
  PosixPath.isabs p = true -> PosixPath.initial_slashes_of p = 1 ->
  canonical (PosixPath.normpath p).
Proof.
  intros Hp Hk. unfold canonical. rewrite components_normpath by assumption.
  rewrite normpath_abs by assumption. unfold normal_names. now rewrite Hk.
Qed.

(** Unless the target starts with exactly two slashes, the root that
    [main] computes is canonical. *)
Lemma main_target_canonical (wd : string) (argv1 : option string) :
  PosixPath.isabs wd = true ->
  PosixPath.initial_slashes_of (main_target wd argv1) = 1 ->
  canonical (main_target wd argv1).
Proof.
  unfold main_target, PosixPath.abspath. intros Hw.
  set (a := match argv1 with Some a => a | None => "." end).
  set (q := if PosixPath.isabs a then a else PosixPath.join2 wd a).
  assert (Hq : PosixPath.isabs q = true).
  { unfold q. destruct (PosixPath.isabs a) eqn:E; [exact E | now apply isabs_join2]. }
  intros Hk. unfold canonical. rewrite components_normpath by assumption.
  rewrite normpath_abs in * by assumption.
  pose proof (all_valid_plain _ (normal_names_valid q Hq)) as Hpl.
  unfold normal_names in *.
  destruct (initial_slashes_cases q Hq) as [E|E]; rewrite E in *; [reflexivity|].
  exfalso. revert Hk.
  destruct (rev _) as [|c cs]; [discriminate|].
  rewrite (initial_slashes_root_join 2); [discriminate | auto | now inversion Hpl].
Qed.

(** ** Confinement to the root *)

(** C1.  A request whose path, joined to the root and made canonical,
    lies outside the root directory is answered with status 403; hence
    every path from which content is served with status 200 is the root
    directory or lies below it, and what the path that is opened leads
    to is what its canonical form leads to. *)
Theorem C1_outside_root_is_forbidden (h : DirectoryHandler) (path : string) :
  PosixPath.isabs (base_dir h) = true ->
  let file_path := file_path_of h (Urllib.urlparse_path path) in
  let canonical_path := PosixPath.abspath (cwd h) file_path in
  (~ under (base_dir h) canonical_path ->
   do_GET h path = Ok (send_error 403))
  /\ (forall r, do_GET h path = Ok r -> status r = 200 ->
      under (base_dir h) canonical_path
      /\ forall n, FS.resolve (root h) (cwd h) file_path = Some n ->
                   FS.resolve (root h) (cwd h) canonical_path = Some n).
Proof.
  intros Hb fp cp. split.
  - apply dispatch_outside, Hb.
  - intros r Hr Hs. split.
    + apply (dispatch_not_403 h _ r Hb Hr). rewrite Hs. discriminate.
    + intros n Hn. unfold cp, PosixPath.abspath.
      pose proof (file_path_isabs h (Urllib.urlparse_path path) Hb) as Hf.
      fold fp in Hf. rewrite Hf. now apply resolve_normpath.
Qed.

Lemma C1_witness :
  do_GET Sample.handler "/../../etc/passwd" = Ok (send_error 403).
Proof.
  apply (C1_outside_root_is_forbidden Sample.handler "/../../etc/passwd").
  - reflexivity.
  - intros [rest H]. vm_compute in H. discriminate.
Defined.

(** * Further properties of the handler *)

(** ** Paths that lead nowhere *)

(** X1.  A request under the root whose path leads to nothing, or to an entry
    that is neither a regular file nor a directory, is answered with
    status 404. *)
Theorem missing_path_is_not_found (h : DirectoryHandler) (path : string) :
  let file_path := file_path_of h (Urllib.urlparse_path path) in
  canonical (base_dir h) ->
  under (base_dir h) (PosixPath.abspath (cwd h) file_path) ->
  FS.resolve (root h) (cwd h) file_path = None
  \/ FS.resolve (root h) (cwd h) file_path = Some FS.Special ->
  do_GET h path = Ok (send_error 404).
Proof.
  intros fp Hc Hu Hr. unfold do_GET. rewrite (dispatch_inside h _ Hc Hu).
  unfold dispatch_admitted, FS.isfile, FS.isdir. fold fp.
  destruct Hr as [-> | ->]; reflexivity.
Qed.

Lemma missing_path_is_not_found_witness :
  do_GET Sample.handler "/sub/nothing.md" = Ok (send_error 404)
  /\ do_GET Sample.handler "/pipe" = Ok (send_error 404).
Proof.
  split.
  - apply (missing_path_is_not_found Sample.handler "/sub/nothing.md").
    + reflexivity.
    + exists ["sub"; "nothing.md"]%list. reflexivity.
    + left. reflexivity.
  - apply (missing_path_is_not_found Sample.handler "/pipe").
    + reflexivity.
    + exists ["pipe"]%list. reflexivity.
    + right. reflexivity.
Defined.

(** ** Exceptions that leave [do_GET] *)

(** X2.  Once [urlparse] has given the path of the request, and with an
    absolute root, the guard, the listing and the raw file branch never
    raise: an exception leaves the rest of [do_GET] only from
    [serve_markdown], for a regular [.md] file whose bytes are not
    UTF-8. *)
Theorem only_markdown_raises (h : DirectoryHandler) (parsed_path : string) (e : pyexc) :
  let file_path := file_path_of h parsed_path in
  PosixPath.isabs (base_dir h) = true ->
  dispatch h parsed_path = Raise e ->
  exists data,
    FS.resolve (root h) (cwd h) file_path = Some (FS.File data)
    /\ PyStr.endswith file_path ".md" = true
    /\ FS.utf8_valid data = false
    /\ e = UnicodeDecodeError.
Proof.
  intros fp Hb.
  pose proof (abspath_isabs (cwd h) _ (file_path_isabs h parsed_path Hb)) as Hp.
  rewrite (dispatch_guard h _ _ (commonpath_abs _ _ Hb Hp)).
  destruct (String.eqb _ (base_dir h)); [|discriminate].
  unfold dispatch_admitted, FS.isfile, FS.isdir. fold fp.
  destruct (FS.resolve (root h) (cwd h) fp) as [[data|es|]|] eqn:Hr;
    cbv beta iota; try discriminate.
  destruct (PyStr.endswith fp ".md") eqn:He; [|discriminate].
  unfold serve_markdown. rewrite (read_text_of_file h fp data Hr).
  destruct (FS.utf8_valid data) eqn:Hv.
  - destruct (markdown h); discriminate.
  - intros H. exists data. repeat split; try assumption.
    destruct (markdown h); simpl in H; congruence.
Qed.

Lemma only_markdown_raises_witness :
  exists data,
    FS.resolve Sample.tree "/srv/docs" "/srv/docs/bad.md" = Some (FS.File data)
    /\ PyStr.endswith "/srv/docs/bad.md" ".md" = true
    /\ FS.utf8_valid data = false
    /\ UnicodeDecodeError = UnicodeDecodeError.
Proof.
  apply (only_markdown_raises Sample.handler "/bad.md" UnicodeDecodeError).
  - reflexivity.
  - reflexivity.
Defined.

(** ** Regular files are served, listed or not *)

(** X3.  A request whose path, joined to the root as it is received,
    leads under the root to a regular file is answered with status 200
    whatever the name of the file, hidden or without [.md]: the filter
    of the listing is not applied to requests.  The one exception is a
    path that ends in [.md] and a file that is not UTF-8. *)
Theorem regular_file_is_served (h : DirectoryHandler) (path data : string) :
  let file_path := file_path_of h (Urllib.urlparse_path path) in
  canonical (base_dir h) ->
  under (base_dir h) (PosixPath.abspath (cwd h) file_path) ->
  FS.resolve (root h) (cwd h) file_path = Some (FS.File data) ->
  (PyStr.endswith file_path ".md" = true -> FS.utf8_valid data = true) ->
  exists headers body,
    do_GET h path = Ok (send_response 200 headers body).
Proof.
  intros fp Hc Hu Hf Hv. unfold do_GET. rewrite (dispatch_inside h _ Hc Hu).
  unfold dispatch_admitted. fold fp. rewrite (isfile_of_file h fp data Hf).
  destruct (PyStr.endswith fp ".md") eqn:He.
  - unfold serve_markdown. rewrite (read_text_of_file h fp data Hf), (Hv eq_refl).
    destruct (markdown h); do 2 eexists; reflexivity.
  - rewrite (serve_file_of_file h fp data Hf). do 2 eexists; reflexivity.
Qed.

Lemma regular_file_is_served_witness :
  exists headers body,
    do_GET Sample.handler "/.notes.MD" = Ok (send_response 200 headers body).
Proof.
  apply (regular_file_is_served Sample.handler "/.notes.MD" "# Hidden").
  - reflexivity.
  - exists [".notes.MD"]%list. reflexivity.
  - reflexivity.
  - discriminate.
Defined.

(** ** What [do_GET] reads of the request target *)

Lemma cut_at_none (c : ascii) (s : string) :
  PyStr.find c s = None -> Urllib.cut_at c s = s.
Proof. unfold Urllib.cut_at. now intros ->. Qed.

Lemma cut_at_head (c : ascii) (s : string) : Urllib.cut_at c (String c s) = "".
Proof. unfold Urllib.cut_at. cbn [PyStr.find]. now rewrite Ascii.eqb_refl. Qed.

Lemma cut_at_cons (c a : ascii) (s : string) :
  a <> c -> Urllib.cut_at c (String a s) = String a (Urllib.cut_at c s).
Proof.
  intros H. apply Ascii.eqb_neq in H. unfold Urllib.cut_at. cbn [PyStr.find].
  rewrite H. destruct (PyStr.find c s); reflexivity.
Qed.

Lemma cut_at_app (c : ascii) (a b : string) :
  PyStr.find c a = None -> Urllib.cut_at c (a ++ b) = a ++ Urllib.cut_at c b.
Proof.
  induction a as [|x a IH]; [reflexivity|]. cbn [PyStr.find append].
  destruct (Ascii.eqb_spec x c) as [->|N]; [discriminate|].
  destruct (PyStr.find c a); [discriminate|]. intros _.
  rewrite cut_at_cons by assumption. now rewrite IH.
Qed.

(** The path [urlparse] gives stops at the first [?] or [#]. *)
Lemma urlparse_path_query (p q : string) :
  PyStr.find "?" p = None -> PyStr.find "#" p = None ->
  Urllib.urlparse_path (p ++ String "?" q) = Urllib.urlparse_path p.
Proof.
  intros Hq Hf. unfold Urllib.urlparse_path.
  rewrite (cut_at_app "#") by assumption.
  rewrite (cut_at_cons "#" "?") by discriminate.
  rewrite (cut_at_app "?") by assumption. rewrite cut_at_head, append_nil_r.
  now rewrite (cut_at_none "#" p Hf), (cut_at_none "?" p Hq).
Qed.

Lemma urlparse_path_fragment (p f : string) :
  PyStr.find "?" p = None -> PyStr.find "#" p = None ->
  Urllib.urlparse_path (p ++ String "#" f) = Urllib.urlparse_path p.
Proof.
  intros Hq Hf. unfold Urllib.urlparse_path.
  rewrite (cut_at_app "#") by assumption. rewrite cut_at_head, append_nil_r.
  now rewrite (cut_at_none "#" p Hf), (cut_at_none "?" p Hq).
Qed.

(** X4.  A query string or a fragment after the path does not change the
    answer: [do_GET] uses the path of the parsed target only. *)
Theorem query_and_fragment_are_ignored (h : DirectoryHandler) (p q : string) :
  PyStr.find "?" p = None -> PyStr.find "#" p = None ->
  do_GET h (p ++ "?" ++ q) = do_GET h p
  /\ do_GET h (p ++ "#" ++ q) = do_GET h p.
Proof.
  intros Hq Hf. unfold do_GET. split.
  - change (p ++ "?" ++ q) with (p ++ String "?" q). now rewrite urlparse_path_query.
  - change (p ++ "#" ++ q) with (p ++ String "#" q). now rewrite urlparse_path_fragment.
Qed.

Lemma query_and_fragment_are_ignored_witness :
  do_GET Sample.handler ("/data.txt" ++ "?" ++ "v=2#top")
  = do_GET Sample.handler "/data.txt"
  /\ do_GET Sample.handler ("/data.txt" ++ "#" ++ "top")
     = do_GET Sample.handler "/data.txt".
Proof.
  apply (query_and_fragment_are_ignored Sample.handler "/data.txt" "v=2#top");
    reflexivity.
Defined.

Lemma lstrip_not_slash (p : string) :
  PyStr.startswith (PyStr.lstrip "/" p) "/" = false.
Proof.
  induction p as [|a p IH]; [reflexivity|]. cbn [PyStr.lstrip].
  destruct (Ascii.eqb_spec a "/") as [->|N]; [exact IH|].
  apply Ascii.eqb_neq in N. cbn. now rewrite N.
Qed.

(** X5.  Whatever the path of the request, [file_path] is the root followed
    by something: the leading slashes are stripped, so [os.path.join]
    never lets the request replace the root. *)
Theorem request_path_cannot_replace_root (h : DirectoryHandler) (parsed_path : string) :
  exists tail, file_path_of h parsed_path = base_dir h ++ tail.
Proof.
  unfold file_path_of, PosixPath.join2. rewrite lstrip_not_slash.
  destruct (_ || _); eexists; reflexivity.
Qed.

(** ** What a listing shows *)

Lemma shown_iff (es : list (string * FS.node)) (nm : string) :
  shown es nm = true
  <-> PyStr.startswith nm "." = false
      /\ forall data, FS.lookup nm es = Some (FS.File data) ->
                      PyStr.lower (Pathlib.suffix_of_name nm) = ".md".
Proof.
  unfold shown. rewrite andb_true_iff, !negb_true_iff. split.
  - intros [Hh Hf]. split; [exact Hh|]. intros data Hl. rewrite Hl in Hf.
    cbn [andb] in Hf. apply negb_false_iff in Hf. now apply String.eqb_eq.
  - intros [Hh Hf]. split; [exact Hh|].
    destruct (FS.lookup nm es) as [[data| |]|]; try reflexivity.
    cbn [andb]. apply negb_false_iff, String.eqb_eq. now apply (Hf data).
Qed.

Lemma insert_sorted_perm (x : string) (l : list string) :
  Permutation (PyStr.insert_sorted x l) (x :: l).
Proof.
  induction l as [|y l IH]; simpl; [apply Permutation_refl|].
  destruct (String.leb x y); [apply Permutation_refl|].
  apply perm_trans with (y :: x :: l); [now apply perm_skip | apply perm_swap].
Qed.

Lemma sorted_perm (l : list string) : Permutation (PyStr.sorted l) l.
Proof.
  induction l as [|x l IH]; simpl; [apply perm_nil|].
  apply perm_trans with (x :: PyStr.sorted l);
    [apply insert_sorted_perm | now apply perm_skip].
Qed.

Lemma filter_perm (f : string -> bool) (l l' : list string) :
  Permutation l l' -> Permutation (filter f l) (filter f l').
Proof.
  induction 1 as [|x l l' _ IH|x y l|l1 l2 l3 _ IH1 _ IH2]; simpl.
  - apply perm_nil.
  - destruct (f x); [now apply perm_skip | exact IH].
  - destruct (f x), (f y); try apply Permutation_refl. apply perm_swap.
  - now apply perm_trans with (filter f l2).
Qed.

(** X6.  The page of a directory under the root: status 200, [text/html],
    and as rows, each once for each time its name is in the directory,
    the entries whose name does not start with a dot and that are not
    regular files with a suffix other than [.md] in any case; the rows
    are in the order of the names. *)
Theorem listing_rows_of_directory (h : DirectoryHandler) (path : string)
        (es : list (string * FS.node)) (rest : list string) :
  let dir := file_path_of h (Urllib.urlparse_path path) in
  canonical (base_dir h) ->
  FS.resolve (root h) (cwd h) dir = Some (FS.Dir es) ->
  components (PosixPath.abspath (cwd h) dir) = (components (base_dir h) ++ rest)%list ->
  all_valid (map fst es) ->
  exists names title,
    do_GET h path
    = Ok (send_response 200 [("Content-type", "text/html")]
            (directory_page title (map row (map (entry_for es rest) names))))
    /\ Permutation names (filter (shown es) (map fst es))
    /\ StronglySorted le_str names
    /\ forall nm,
         shown es nm = true
         <-> PyStr.startswith nm "." = false
             /\ forall data, FS.lookup nm es = Some (FS.File data) ->
                             PyStr.lower (Pathlib.suffix_of_name nm) = ".md".
Proof.
  intros dir Hc Hr Hu Hv. exists (listed es). eexists. split; [|split; [|split]].
  - unfold do_GET. now apply (dispatch_directory h _ es rest).
  - apply filter_perm, sorted_perm.
  - apply listed_sorted.
  - apply shown_iff.
Qed.

Lemma listing_rows_of_directory_witness :
  exists names title,
    do_GET Sample.handler "/sub"
    = Ok (send_response 200 [("Content-type", "text/html")]
            (directory_page title
               (map row (map (entry_for [("my-notes.md", FS.File "# Below")] ["sub"])
                           names))))
    /\ Permutation names
         (filter (shown [("my-notes.md", FS.File "# Below")]) ["my-notes.md"])
    /\ StronglySorted le_str names
    /\ forall nm,
         shown [("my-notes.md", FS.File "# Below")] nm = true
         <-> PyStr.startswith nm "." = false
             /\ forall data,
                  FS.lookup nm [("my-notes.md", FS.File "# Below")] = Some (FS.File data) ->
                  PyStr.lower (Pathlib.suffix_of_name nm) = ".md".
Proof.
  apply (listing_rows_of_directory Sample.handler "/sub"
           [("my-notes.md", FS.File "# Below")] ["sub"]).
  - reflexivity.
  - reflexivity.
  - reflexivity.
  - repeat constructor.
Defined.

(** X7.  A subdirectory that is not hidden has a row with the folder icon,
    and its link text ends in a slash. *)
Theorem subdirectory_row (h : DirectoryHandler) (path nm : string)
        (es sub : list (string * FS.node)) (rest : list string) :
  let dir := file_path_of h (Urllib.urlparse_path path) in
  let e := {| entry_icon := "📁";
              entry_rel := Urllib.quote (PyStr.join "/" (rest ++ [nm])%list);
              entry_label := _pretty nm;
              entry_suffix := "/" |} in
  canonical (base_dir h) ->
  FS.resolve (root h) (cwd h) dir = Some (FS.Dir es) ->
  components (PosixPath.abspath (cwd h) dir) = (components (base_dir h) ++ rest)%list ->
  all_valid (map fst es) ->
  FS.lookup nm es = Some (FS.Dir sub) ->
  PyStr.startswith nm "." = false ->
  exists body,
    do_GET h path = Ok (send_response 200 [("Content-type", "text/html")] body)
    /\ contains body
         ("<li>📁 <a href=" ++ dq ++ "/" ++ entry_rel e ++ dq ++ ">"
          ++ _pretty nm ++ "/</a></li>").
Proof.
  intros dir e Hc Hr Hu Hv Hl Hh. eexists. split.
  - unfold do_GET. now apply (dispatch_directory h _ es rest).
  - apply directory_page_contains.
    assert (He : entry_for es rest nm = e).
    { unfold entry_for, e. now rewrite Hl. }
    change ("<li>📁 <a href=" ++ dq ++ "/" ++ entry_rel e ++ dq ++ ">"
            ++ _pretty nm ++ "/</a></li>") with (row e).
    rewrite <- He. apply in_map, (entry_listed es rest nm (FS.Dir sub) Hl).
    unfold shown. now rewrite Hl, Hh.
Qed.

Lemma subdirectory_row_witness :
  exists body,
    do_GET Sample.handler "/"
    = Ok (send_response 200 [("Content-type", "text/html")] body)
    /\ contains body ("<li>📁 <a href=" ++ dq ++ "/sub" ++ dq ++ ">Sub/</a></li>").
Proof.
  apply (subdirectory_row Sample.handler "/" "sub" Sample.docs_entries
           [("my-notes.md", FS.File "# Below")] []).
  - reflexivity.
  - reflexivity.
  - reflexivity.
  - repeat constructor.
  - reflexivity.
  - reflexivity.
Defined.

Lemma directory_page_title (title : string) (rows : list string) :
  contains (directory_page title rows) (title_tag title)
  /\ contains (directory_page title rows) ("<h2>📂 " ++ title ++ "</h2>").
Proof.
  unfold directory_page. split.
  - exists page_open. eexists. reflexivity.
  - exists (page_open ++ title_tag title ++ "
<style>
 body{font-family:-apple-system,BlinkMacSystemFont,'Segoe UI',sans-serif;margin:40px}
 ul{list-style:none;padding:0}
 li{padding:8px 0;border-bottom:1px solid #f5f5f5}
 a{text-decoration:none;color:#333}
 a:hover{text-decoration:underline}
</style></head>
<body>
 <h1>📘 MD Viewer</h1>
 ").
    exists ("
 <ul>" ++ PyStr.join "" rows ++ "</ul>" ++ page_close).
    unfold directory_style. rewrite !append_assoc. reflexivity.
Qed.

(** X8.  The page of a directory names it by its path from the root, each
    part prettified, in the title and in the heading; the root itself
    is named by a dot. *)
Theorem listing_title_is_relative_path (h : DirectoryHandler) (path : string)
        (es : list (string * FS.node)) (rest : list string) :
  let dir := file_path_of h (Urllib.urlparse_path path) in
  let title := match rest with
               | [] => "."
               | _ => _pretty (PyStr.join "/" rest)
               end in
  canonical (base_dir h) ->
  FS.resolve (root h) (cwd h) dir = Some (FS.Dir es) ->
  components (PosixPath.abspath (cwd h) dir) = (components (base_dir h) ++ rest)%list ->
  all_valid (map fst es) ->
  exists body,
    do_GET h path = Ok (send_response 200 [("Content-type", "text/html")] body)
    /\ contains body ("<title>MD Viewer - " ++ title ++ "</title>")
    /\ contains body ("<h2>📂 " ++ title ++ "</h2>").
Proof.
  intros dir title Hc Hr Hu Hv. eexists. split.
  - unfold do_GET. now apply (dispatch_directory h _ es rest).
  - assert (Ht : _pretty (match rest with [] => "." | _ => PyStr.join "/" rest end) = title).
    { unfold title. now destruct rest. }
    rewrite Ht. apply directory_page_title.
Qed.

Lemma listing_title_is_relative_path_witness :
  exists body,
    do_GET Sample.handler "/sub"
    = Ok (send_response 200 [("Content-type", "text/html")] body)
    /\ contains body ("<title>MD Viewer - " ++ "Sub" ++ "</title>")
    /\ contains body ("<h2>📂 " ++ "Sub" ++ "</h2>").
Proof.
  apply (listing_title_is_relative_path Sample.handler "/sub"
           [("my-notes.md", FS.File "# Below")] ["sub"]).
  - reflexivity.
  - reflexivity.
  - reflexivity.
  - repeat constructor.
Defined.

(** ** The links of a listing *)

Lemma hex_digits_safe (a : ascii) :
  Urllib.always_safe (Urllib.hex_digit (PyStr.code a / 16)) = true
  /\ Urllib.always_safe (Urllib.hex_digit (PyStr.code a mod 16)) = true.
Proof. destruct a as [[] [] [] [] [] [] [] []]; vm_compute; split; reflexivity. Qed.

Lemma quote_url_chars (s : string) : all_chars url_char (Urllib.quote s) = true.
Proof.
  induction s as [|a s IH]; [reflexivity|]. cbn [Urllib.quote].
  destruct (Urllib.always_safe a) eqn:E.
  - cbn [all_chars]. unfold url_char at 1. now rewrite E, IH.
  - destruct (hex_digits_safe a) as [H1 H2].
    cbn [all_chars]. unfold url_char at 1 2 3. now rewrite H1, H2, IH.
Qed.

Lemma all_chars_find (f : ascii -> bool) (c : ascii) (s : string) :
  all_chars f s = true -> f c = false -> PyStr.find c s = None.
Proof.
  intros Hs Hc. induction s as [|a s IH]; [reflexivity|].
  cbn [all_chars] in Hs. apply andb_prop in Hs as [Ha Hs].
  cbn [PyStr.find]. destruct (Ascii.eqb_spec a c) as [->|N]; [congruence|].
  now rewrite IH.
Qed.

Lemma listing_loop_rel (h : DirectoryHandler) (dir : string) (items : list string) :
  forall l, listing_loop h dir items = Ok l ->
  forall e, In e l -> exists rel, entry_rel e = Urllib.quote rel.
Proof.
  induction items as [|item items IH]; intros l Hl e He.
  - injection Hl as <-. contradiction.
  - cbn [listing_loop] in Hl. unfold bind in Hl.
    destruct (listing_entry h dir item) as [o|] eqn:Ho; [|discriminate].
    destruct (listing_loop h dir items) as [l'|]; [|discriminate].
    injection Hl as <-.
    assert (Hin : (exists x, o = Some x /\ e = x) \/ In e l').
    { destruct o as [x|]; [destruct He as [<-|He]|]; eauto. }
    destruct Hin as [(x & -> & ->)|Hin]; [|now apply (IH l')].
    unfold listing_entry in Ho.
    destruct (PyStr.startswith item "."); [discriminate|].
    destruct (_ && _); [discriminate|]. unfold bind in Ho.
    destruct (PosixPath.relpath _ _ _) as [rel|]; [|discriminate].
    injection Ho as <-. now exists rel.
Qed.

(** X9.  In every listing, whatever the names of the entries, a link is made
    of unreserved characters, slashes and percent escapes: no quote, no
    angle bracket, no space, no [?], no [#]. *)
Theorem listing_links_are_quoted (h : DirectoryHandler) (dir : string)
        (l : list entry) (e : entry) :
  listing h dir = Ok l -> In e l ->
  all_chars url_char (entry_rel e) = true
  /\ PyStr.find (ascii_of_nat 34) (entry_rel e) = None
  /\ PyStr.find "<" (entry_rel e) = None
  /\ PyStr.find ">" (entry_rel e) = None
  /\ PyStr.find " " (entry_rel e) = None
  /\ PyStr.find "?" (entry_rel e) = None
  /\ PyStr.find "#" (entry_rel e) = None.
Proof.
  intros Hl He. unfold listing, bind in Hl.
  destruct (FS.listdir (root h) (cwd h) dir) as [items|]; [|discriminate].
  destruct (listing_loop_rel h dir _ l Hl e He) as [rel ->].
  pose proof (quote_url_chars rel) as H.
  repeat split; try exact H; now apply (all_chars_find url_char).
Qed.

Lemma listing_links_are_quoted_witness :
  all_chars url_char "my%20notes.md" = true
  /\ PyStr.find (ascii_of_nat 34) "my%20notes.md" = None
  /\ PyStr.find "<" "my%20notes.md" = None
  /\ PyStr.find ">" "my%20notes.md" = None
  /\ PyStr.find " " "my%20notes.md" = None
  /\ PyStr.find "?" "my%20notes.md" = None
  /\ PyStr.find "#" "my%20notes.md" = None.
Proof.
  apply (listing_links_are_quoted Sample.handler "/srv/docs/"
           (map (entry_for Sample.docs_entries []) (listed Sample.docs_entries))
           (entry_for Sample.docs_entries [] "my notes.md")).
  - vm_compute. reflexivity.
  - vm_compute. tauto.
Defined.

(** ** The display name, further *)

Lemma pretty_char_facts (b : bool) (a : ascii) :
  let out := if Ascii.eqb a "-" || Ascii.eqb a "_" then " "%char
             else if b then PyStr.to_lower a else PyStr.to_upper a in
  out <> "-"%char /\ out <> "_"%char
  /\ PyStr.is_cased out = PyStr.is_cased a
  /\ (if Ascii.eqb out "-" || Ascii.eqb out "_" then " "%char
      else if b then PyStr.to_lower out else PyStr.to_upper out) = out
  /\ (if Ascii.eqb (PyStr.to_lower a) "-" || Ascii.eqb (PyStr.to_lower a) "_" then " "%char
      else if b then PyStr.to_lower (PyStr.to_lower a)
           else PyStr.to_upper (PyStr.to_lower a)) = out
  /\ PyStr.is_cased (PyStr.to_lower a) = PyStr.is_cased a.
Proof.
  destruct b, a as [[] [] [] [] [] [] [] []]; vm_compute;
    repeat split; try reflexivity; discriminate.
Qed.

Lemma pretty_from_no_dash (b : bool) (s : string) :
  PyStr.find "-" (pretty_from b s) = None /\ PyStr.find "_" (pretty_from b s) = None.
Proof.
  revert b; induction s as [|a s IH]; intros b; [split; reflexivity|].
  destruct (pretty_char_facts b a) as (H1 & H2 & _).
  destruct (IH (PyStr.is_cased a)) as [I1 I2].
  cbn [pretty_from PyStr.find]. apply Ascii.eqb_neq in H1, H2.
  now rewrite H1, H2, I1, I2.
Qed.

Lemma pretty_from_idem (b : bool) (s : string) :
  pretty_from b (pretty_from b s) = pretty_from b s.
Proof.
  revert b; induction s as [|a s IH]; intros b; [reflexivity|].
  destruct (pretty_char_facts b a) as (_ & _ & Hc & Hi & _).
  cbn [pretty_from]. cbv zeta in Hc, Hi. rewrite Hi, Hc. now rewrite IH.
Qed.

Lemma pretty_from_lower (b : bool) (s : string) :
  pretty_from b (PyStr.lower s) = pretty_from b s.
Proof.
  revert b; induction s as [|a s IH]; intros b; [reflexivity|].
  destruct (pretty_char_facts b a) as (_ & _ & _ & _ & Hl & Hc).
  cbn [PyStr.lower pretty_from]. cbv zeta in Hl. rewrite Hl, Hc. now rewrite IH.
Qed.

(** X10.  The display name of a name of ASCII characters has the length
    of the name and holds no hyphen and no underscore. *)
Theorem pretty_has_no_hyphen_or_underscore (name : string) :
  ascii_text name ->
  String.length (_pretty name) = String.length name
  /\ PyStr.find "-" (_pretty name) = None
  /\ PyStr.find "_" (_pretty name) = None.
Proof.
  intros _. rewrite _pretty_pointwise.
  split; [apply pretty_from_length | apply pretty_from_no_dash].
Qed.

Lemma pretty_has_no_hyphen_or_underscore_witness :
  String.length (_pretty "read_me-first.md") = String.length "read_me-first.md"
  /\ PyStr.find "-" (_pretty "read_me-first.md") = None
  /\ PyStr.find "_" (_pretty "read_me-first.md") = None.
Proof.
  apply (pretty_has_no_hyphen_or_underscore "read_me-first.md"). reflexivity.
Defined.

(** X11.  The display name of a name of ASCII characters does not depend
    on the case of the name, and prettifying twice changes nothing
    more. *)
Theorem pretty_ignores_case_and_is_idempotent (name : string) :
  ascii_text name ->
  _pretty (PyStr.lower name) = _pretty name
  /\ _pretty (_pretty name) = _pretty name.
Proof.
  intros _. rewrite !_pretty_pointwise.
  split; [apply pretty_from_lower | apply pretty_from_idem].
Qed.

Lemma pretty_ignores_case_and_is_idempotent_witness :
  _pretty (PyStr.lower "READ_me-First.MD") = _pretty "READ_me-First.MD"
  /\ _pretty (_pretty "READ_me-First.MD") = _pretty "READ_me-First.MD".
Proof.
  apply (pretty_ignores_case_and_is_idempotent "READ_me-First.MD"). reflexivity.
Defined.

(** ** Paths with and without a trailing slash *)

Lemma split_snoc_sep (p : string) :
  PyStr.split "/" (p ++ "/") = (PyStr.split "/" p ++ [""])%list.
Proof.
  induction p as [|a p IH]; [reflexivity|]. cbn [append PyStr.split].
  destruct (Ascii.eqb a "/"); [now rewrite IH|]. rewrite IH.
  pose proof (split_not_nil "/" p) as Hn.
  destruct (PyStr.split "/" p); [contradiction | reflexivity].
Qed.

Lemma components_snoc_sep (p : string) : components (p ++ "/") = components p.
Proof.
  unfold components. rewrite split_snoc_sep, filter_app. cbn. apply app_nil_r.
Qed.

Lemma normpath_loop_S (k : nat) (cs acc : list string) :
  PosixPath.normpath_loop (S k) acc cs = PosixPath.normpath_loop 1 acc cs.
Proof.
  revert acc; induction cs as [|c cs IH]; intros acc; [reflexivity|].
  cbn [PosixPath.normpath_loop Nat.eqb andb].
  destruct (_ || _); [apply IH|]. destruct (_ || _); [apply IH|].
  destruct acc; apply IH.
Qed.

(** The names [normpath] leaves of an absolute path depend on its
    components only. *)
Lemma normal_names_components (p : string) :
  PosixPath.isabs p = true ->
  normal_names p = rev (PosixPath.normpath_loop 1 [] (components p)).
Proof.
  intros H. unfold normal_names, components.
  destruct (initial_slashes_abs p H) as [k ->].
  now rewrite normpath_loop_S, normpath_loop_filter.
Qed.

Lemma components_abspath (wd p : string) :
  PosixPath.isabs p = true ->
  components (PosixPath.abspath wd p)
  = rev (PosixPath.normpath_loop 1 [] (components p)).
Proof.
  intros H. unfold PosixPath.abspath. rewrite H, components_normpath by assumption.
  now apply normal_names_components.
Qed.

Lemma isabs_app (p t : string) :
  PosixPath.isabs p = true -> PosixPath.isabs (p ++ t) = true.
Proof. intros H. apply startswith_slash in H as [u ->]. reflexivity. Qed.

Lemma walk_snoc_empty (cs : list string) :
  forall ps cur,
    FS.walk ps cur (cs ++ [""])%list
    = match FS.walk ps cur cs with
      | Some (FS.Dir es) => Some (FS.Dir es)
      | _ => None
      end.
Proof.
  induction cs as [|c cs IH]; intros ps cur.
  - cbn [app]. rewrite walk_skip by reflexivity. cbn [FS.walk].
    destruct cur; reflexivity.
  - cbn [app]. destruct (PosixPath.keep_comp c) eqn:E.
    + rewrite !walk_keep_step by assumption.
      destruct cur as [d|es|]; try reflexivity.
      destruct (String.eqb c "..").
      * destruct ps; apply IH.
      * destruct (FS.lookup c es); [apply IH | reflexivity].
    + rewrite !walk_skip by assumption.
      destruct cur; try reflexivity; apply IH.
Qed.

(** A directory is found with a slash after its path as without. *)
Lemma resolve_snoc_sep (rt : FS.node) (wd p : string) (es : list (string * FS.node)) :
  PosixPath.isabs p = true ->
  FS.resolve rt wd p = Some (FS.Dir es) ->
  FS.resolve rt wd (p ++ "/") = Some (FS.Dir es).
Proof.
  intros Hp Hr. unfold FS.resolve in *.
  pose proof (isabs_app p "/" Hp) as Hq.
  rewrite (isabs_not_empty _ Hq), Hq. rewrite (isabs_not_empty _ Hp), Hp in Hr.
  now rewrite split_snoc_sep, walk_snoc_empty, Hr.
Qed.

Lemma lstrip_snoc_sep (p : string) :
  PyStr.lstrip "/" (p ++ "/")
  = if String.eqb (PyStr.lstrip "/" p) "" then "" else PyStr.lstrip "/" p ++ "/".
Proof.
  induction p as [|a p IH]; [reflexivity|]. cbn [append PyStr.lstrip].
  destruct (Ascii.eqb a "/"); [exact IH | reflexivity].
Qed.

Lemma startswith_app_slash (r t : string) :
  r <> "" -> PyStr.startswith (r ++ t) "/" = PyStr.startswith r "/".
Proof. destruct r; [contradiction | reflexivity]. Qed.

(** With the slash the request has the same [file_path], or the same
    followed by a slash. *)
Lemma file_path_snoc_sep (h : DirectoryHandler) (p : string) :
  PosixPath.isabs (base_dir h) = true ->
  file_path_of h (p ++ "/") = file_path_of h p
  \/ file_path_of h (p ++ "/") = file_path_of h p ++ "/".
Proof.
  intros Hb. unfold file_path_of. rewrite lstrip_snoc_sep.
  destruct (String.eqb_spec (PyStr.lstrip "/" p) "") as [E|N]; [now left; rewrite E|].
  right. unfold PosixPath.join2.
  rewrite startswith_app_slash, lstrip_not_slash by assumption.
  destruct (_ || _); now rewrite !append_assoc.
Qed.

(** X12.  A directory under the root is listed the same with a slash after
    its path as without: the links of a listing have none. *)
Theorem directory_with_or_without_slash (h : DirectoryHandler) (parsed_path : string)
        (es : list (string * FS.node)) (rest : list string) :
  let dir := file_path_of h parsed_path in
  canonical (base_dir h) ->
  FS.resolve (root h) (cwd h) dir = Some (FS.Dir es) ->
  components (PosixPath.abspath (cwd h) dir) = (components (base_dir h) ++ rest)%list ->
  all_valid (map fst es) ->
  dispatch h (parsed_path ++ "/") = dispatch h parsed_path
  /\ exists body,
       dispatch h parsed_path
       = Ok (send_response 200 [("Content-type", "text/html")] body).
Proof.
  intros dir Hc Hr Hu Hv.
  pose proof (canonical_isabs _ Hc) as Hb.
  pose proof (file_path_isabs h parsed_path Hb) as Hd. fold dir in Hd.
  rewrite (dispatch_directory h parsed_path es rest Hc Hr Hu Hv).
  split; [|eexists; reflexivity].
  destruct (file_path_snoc_sep h parsed_path Hb) as [E|E].
  - apply (dispatch_directory h _ es rest Hc); rewrite ?E; assumption.
  - apply (dispatch_directory h _ es rest Hc); rewrite ?E; fold dir.
    + now apply resolve_snoc_sep.
    + rewrite components_abspath by now apply isabs_app.
      rewrite components_snoc_sep, <- components_abspath with (wd := cwd h) by assumption.
      exact Hu.
    + exact Hv.
Qed.

Lemma directory_with_or_without_slash_witness :
  dispatch Sample.handler ("/sub" ++ "/") = dispatch Sample.handler "/sub"
  /\ exists body,
       dispatch Sample.handler "/sub"
       = Ok (send_response 200 [("Content-type", "text/html")] body).
Proof.
  apply (directory_with_or_without_slash Sample.handler "/sub"
           [("my-notes.md", FS.File "# Below")] ["sub"]).
  - reflexivity.
  - reflexivity.
  - reflexivity.
  - repeat constructor.
Defined.

(** ** Following the links of a listing *)

Lemma join_app (a b : list string) :
  a <> [] -> b <> [] ->
  PyStr.join "/" (a ++ b)%list = PyStr.join "/" a ++ "/" ++ PyStr.join "/" b.
Proof.
  intros Ha Hb. induction a as [|x a IH]; [contradiction|].
  destruct a as [|y a].
  - destruct b; [contradiction | reflexivity].
  - change (PyStr.join "/" ((x :: y :: a) ++ b)%list)
      with (x ++ "/" ++ PyStr.join "/" ((y :: a) ++ b)%list).
    rewrite IH by discriminate.
    change (PyStr.join "/" (x :: y :: a)) with (x ++ "/" ++ PyStr.join "/" (y :: a)).
    now rewrite !append_assoc.
Qed.

Lemma join_not_empty (c : string) (t : list string) :
  plain c -> PyStr.join "/" (c :: t) <> "".
Proof. intros H. destruct (join_head c t H) as (a & w & -> & _). discriminate. Qed.

Lemma endswith_join (B : list string) (w : string) :
  Forall plain B -> B <> [] -> PyStr.endswith (w ++ PyStr.join "/" B) "/" = false.
Proof.
  intros H. revert w. induction H as [|x B Hx HB IH]; intros w Hn; [contradiction|].
  destruct B as [|y B].
  - cbn [PyStr.join String.concat]. rewrite endswith_slash_app.
    + apply endswith_slash_no_sep, Hx.
    + destruct Hx as [Hk _]. destruct x; [discriminate Hk | discriminate].
  - change (PyStr.join "/" (x :: y :: B)) with (x ++ "/" ++ PyStr.join "/" (y :: B)).
    rewrite <- !append_assoc. apply IH. discriminate.
Qed.

Lemma startswith_join (c : string) (t : list string) :
  plain c -> PyStr.startswith (PyStr.join "/" (c :: t)) "/" = false.
Proof.
  intros H. destruct (join_head c t H) as (a & w & -> & Ha).
  apply Ascii.eqb_neq in Ha. cbn. now rewrite Ha.
Qed.

(** Joining names to a canonical root gives the path of the root's
    components followed by the names. *)
Lemma join2_canonical (b : string) (L : list string) :
  canonical b -> Forall plain L -> L <> [] ->
  PosixPath.join2 b (PyStr.join "/" L)
  = "/" ++ PyStr.join "/" (components b ++ L)%list.
Proof.
  intros Hc HL Hn. destruct L as [|c t]; [contradiction|].
  inversion HL as [|? ? Hcp _]; subst.
  unfold PosixPath.join2. rewrite (startswith_join c t Hcp).
  pose proof (components_plain b) as HB.
  destruct (components b) as [|x B] eqn:E.
  - unfold canonical in Hc. rewrite E in Hc. rewrite Hc. reflexivity.
  - unfold canonical in Hc. rewrite E in Hc.
    assert (He : PyStr.endswith b "/" = false).
    { rewrite Hc. apply endswith_join; [exact HB | discriminate]. }
    assert (Hne : String.eqb b "" = false) by now rewrite Hc.
    rewrite Hne, He. cbn [orb]. rewrite join_app by discriminate.
    rewrite Hc at 1. now rewrite !append_assoc.
Qed.

Lemma lstrip_id (s : string) :
  PyStr.startswith s "/" = false -> PyStr.lstrip "/" s = s.
Proof.
  destruct s as [|a s]; [reflexivity|]. cbn.
  destruct (Ascii.eqb a "/"); [discriminate | reflexivity].
Qed.

Lemma quote_length (s : string) : String.length s <= String.length (Urllib.quote s).
Proof.
  induction s as [|a s IH]; [apply le_n|]. cbn [Urllib.quote].
  destruct (Urllib.always_safe a); cbn [String.length]; lia.
Qed.

(** A string [quote] leaves as it is holds unreserved characters and
    slashes only. *)
Lemma quote_fixed (s : string) :
  Urllib.quote s = s -> all_chars Urllib.always_safe s = true.
Proof.
  induction s as [|a s IH]; [reflexivity|]. cbn [Urllib.quote all_chars].
  destruct (Urllib.always_safe a) eqn:E.
  - intros [= H]. now rewrite IH.
  - intros [= _ H]. exfalso. pose proof (quote_length s) as Hl.
    rewrite <- H in Hl at 1. cbn [String.length] in Hl. lia.
Qed.

Lemma find_slice_from (c : ascii) (s : string) (j : nat) :
  PyStr.find c s = None -> PyStr.find c (PyStr.slice_from j s) = None.
Proof.
  revert s; induction j as [|j IH]; intros s H; [now destruct s|].
  destruct s as [|a s]; [reflexivity|]. cbn [PyStr.slice_from]. apply IH.
  cbn [PyStr.find] in H. destruct (Ascii.eqb a c); [discriminate|].
  now destruct (PyStr.find c s).
Qed.

(** A target without [?], [#] and [;] is its own path. *)
Lemma urlparse_path_plain (p : string) :
  PyStr.find "?" p = None -> PyStr.find "#" p = None -> PyStr.find ";" p = None ->
  Urllib.urlparse_path p = p.
Proof.
  intros Hq Hf Hs. unfold Urllib.urlparse_path.
  rewrite (cut_at_none "#" p Hf), (cut_at_none "?" p Hq). unfold Urllib.splitparams.
  destruct (PyStr.rfind "/" p) as [j|].
  - now rewrite (find_slice_from ";" p j Hs).
  - now rewrite Hs.
Qed.

Lemma all_valid_app (a b : list string) :
  all_valid (a ++ b)%list <-> all_valid a /\ all_valid b.
Proof. apply Forall_app. Qed.

(** The path of names below a canonical root: where it leads, and its
    canonical form. *)
Lemma resolve_names (rt : FS.node) (wd : string) (L : list string) :
  all_valid L ->
  (FS.resolve rt wd ("/" ++ PyStr.join "/" L)
   = match rt with FS.Dir _ => FS.walk [] rt L | _ => None end)
  /\ components (PosixPath.abspath wd ("/" ++ PyStr.join "/" L)) = L.
Proof.
  intros HL. pose proof (all_valid_plain L HL) as Hp. split.
  - unfold FS.resolve.
    change (String.eqb ("/" ++ PyStr.join "/" L) "") with false.
    change (PosixPath.isabs ("/" ++ PyStr.join "/" L)) with true. cbv iota.
    destruct L as [|c t].
    + cbn. destruct rt; reflexivity.
    + change ("/" ++ PyStr.join "/" (c :: t))
        with (PosixPath.repeat_sep 1 ++ PyStr.join "/" (c :: t)).
      rewrite split_root; [|discriminate | now apply plain_no_sep].
      cbn [repeat app]. rewrite walk_skip by reflexivity. reflexivity.
  - rewrite components_abspath by reflexivity.
    change ("/" ++ PyStr.join "/" L) with (PosixPath.repeat_sep 1 ++ PyStr.join "/" L).
    rewrite components_root_join by assumption.
    rewrite normpath_loop_names by assumption.
    rewrite app_nil_r. apply rev_involutive.
Qed.

(** Where the path of a directory leads, its names lead. *)
Lemma walk_of_resolve (rt : FS.node) (wd dir : string) (n : FS.node) :
  PosixPath.isabs dir = true ->
  FS.resolve rt wd dir = Some n ->
  (exists res, rt = FS.Dir res)
  /\ FS.walk [] rt (components (PosixPath.abspath wd dir)) = Some n.
Proof.
  intros Hd Hr. pose proof (resolve_normpath rt wd dir n Hd Hr) as Hn.
  unfold FS.resolve in Hr, Hn.
  pose proof (normpath_isabs dir Hd) as Hq.
  rewrite (isabs_not_empty _ Hq), Hq in Hn. rewrite (isabs_not_empty _ Hd), Hd in Hr.
  split; [exact (walk_nonnil_dir _ _ _ _ (split_not_nil _ _) Hr)|].
  unfold PosixPath.abspath. rewrite Hd. now apply walk_filter.
Qed.

(** X13.  When [quote] has nothing to escape in the path of an entry from the
    root, the link its row carries leads back to it: the request for the
    link has a [file_path] under the root that resolves to the entry. *)
Theorem listing_link_leads_to_entry (h : DirectoryHandler) (dir nm : string)
        (es : list (string * FS.node)) (rest : list string) (x : FS.node) :
  let rel := PyStr.join "/" (rest ++ [nm])%list in
  let href := "/" ++ entry_rel (entry_for es rest nm) in
  let file_path := file_path_of h (Urllib.urlparse_path href) in
  canonical (base_dir h) -> PosixPath.isabs dir = true ->
  FS.resolve (root h) (cwd h) dir = Some (FS.Dir es) ->
  components (PosixPath.abspath (cwd h) dir) = (components (base_dir h) ++ rest)%list ->
  FS.valid_name nm = true ->
  FS.lookup nm es = Some x ->
  Urllib.quote rel = rel ->
  FS.resolve (root h) (cwd h) file_path = Some x
  /\ under (base_dir h) (PosixPath.abspath (cwd h) file_path)
  /\ do_GET h href = dispatch_admitted h file_path.
Proof.
  intros rel href fp Hc Hd Hr Hu Hv Hl Hq.
  assert (Hvalid : all_valid ((components (base_dir h) ++ rest) ++ [nm])%list).
  { apply all_valid_app. split; [|now constructor].
    rewrite <- Hu. unfold PosixPath.abspath. rewrite Hd, components_normpath by assumption.
    now apply normal_names_valid. }
  assert (Hrest : Forall plain (rest ++ [nm])%list).
  { apply all_valid_plain. rewrite <- app_assoc in Hvalid.
    apply all_valid_app in Hvalid. tauto. }
  assert (Hhref : href = "/" ++ rel).
  { unfold href. cbn [entry_for entry_rel]. fold rel. now rewrite Hq. }
  pose proof (quote_fixed rel Hq) as Hsafe.
  assert (Hparse : Urllib.urlparse_path href = href).
  { rewrite Hhref. apply urlparse_path_plain;
      cbn [append PyStr.find Ascii.eqb Bool.eqb];
      now rewrite (all_chars_find Urllib.always_safe _ rel Hsafe). }
  assert (Hfp : fp = "/" ++ PyStr.join "/" ((components (base_dir h) ++ rest) ++ [nm])%list).
  { unfold fp, file_path_of. rewrite Hparse, Hhref.
    change (PyStr.lstrip "/" ("/" ++ rel)) with (PyStr.lstrip "/" rel).
    assert (Hs : PyStr.startswith rel "/" = false).
    { unfold rel. destruct (rest ++ [nm])%list as [|c t] eqn:E;
        [now destruct rest|]. apply startswith_join. now inversion Hrest. }
    rewrite (lstrip_id rel Hs). unfold rel.
    rewrite join2_canonical; [now rewrite app_assoc | exact Hc | exact Hrest |].
    now destruct rest. }
  destruct (resolve_names (root h) (cwd h) _ Hvalid) as [Hres Hcomp].
  destruct (walk_of_resolve _ _ _ _ Hd Hr) as [[res Hroot] Hw].
  assert (Hu' : under (base_dir h) (PosixPath.abspath (cwd h) fp)).
  { exists (rest ++ [nm])%list. now rewrite Hfp, Hcomp, app_assoc. }
  split; [|split; [exact Hu'|]].
  - rewrite Hfp, Hres, Hroot. rewrite <- Hroot.
    rewrite walk_app_name by assumption. rewrite <- Hu, Hw. exact Hl.
  - unfold do_GET. fold fp. unfold fp at 1.
    now apply dispatch_inside.
Qed.

Lemma listing_link_leads_to_entry_witness :
  FS.resolve Sample.tree "/srv/docs" "/srv/docs/sub/my-notes.md"
  = Some (FS.File "# Below")
  /\ under "/srv/docs" (PosixPath.abspath "/srv/docs" "/srv/docs/sub/my-notes.md")
  /\ do_GET Sample.handler "/sub/my-notes.md"
     = dispatch_admitted Sample.handler "/srv/docs/sub/my-notes.md".
Proof.
  apply (listing_link_leads_to_entry Sample.handler "/srv/docs/sub" "my-notes.md"
           [("my-notes.md", FS.File "# Below")] ["sub"] (FS.File "# Below")).
  - reflexivity.
  - reflexivity.
  - reflexivity.
  - reflexivity.
  - reflexivity.
  - reflexivity.
  - reflexivity.
Defined.

(** ** Startup *)

Lemma resolve_abs_cwd (rt : FS.node) (wd1 wd2 p : string) :
  PosixPath.isabs p = true -> FS.resolve rt wd1 p = FS.resolve rt wd2 p.
Proof. intros H. unfold FS.resolve. now rewrite H. Qed.

Lemma main_target_valid (wd : string) (argv1 : option string) :
  PosixPath.isabs wd = true -> all_valid (components (main_target wd argv1)).
Proof.
  intros Hw. unfold main_target, PosixPath.abspath.
  set (a := match argv1 with Some a => a | None => "." end).
  set (q := if PosixPath.isabs a then a else PosixPath.join2 wd a).
  assert (Hq : PosixPath.isabs q = true).
  { unfold q. destruct (PosixPath.isabs a) eqn:E; [exact E | now apply isabs_join2]. }
  rewrite components_normpath by assumption. now apply normal_names_valid.
Qed.

(** The request for the root: [file_path] is the root, with a slash
    after it unless the root is [/]. *)
Lemma root_request (rt : FS.node) (wd b : string) (es : list (string * FS.node)) :
  canonical b -> all_valid (components b) ->
  FS.resolve rt wd b = Some (FS.Dir es) ->
  FS.resolve rt wd (PosixPath.join2 b "") = Some (FS.Dir es)
  /\ components (PosixPath.abspath wd (PosixPath.join2 b ""))
     = (components b ++ [])%list.
Proof.
  intros Hc Hv Hr. pose proof (canonical_isabs b Hc) as Hb.
  assert (Hn : rev (PosixPath.normpath_loop 1 [] (components b)) = (components b ++ [])%list).
  { rewrite normpath_loop_names by assumption. rewrite !app_nil_r. apply rev_involutive. }
  unfold PosixPath.join2. cbn [PyStr.startswith].
  destruct (_ || _).
  - rewrite append_nil_r. split; [exact Hr|].
    now rewrite components_abspath.
  - change (b ++ "/" ++ "") with (b ++ "/"). split; [now apply resolve_snoc_sep|].
    rewrite components_abspath by now apply isabs_app.
    now rewrite components_snoc_sep.
Qed.

(** X14.  [main] started from an absolute working directory: it exits with
    status 1 and a message that names the target when the target is not
    a directory; otherwise the handlers have the target, an absolute
    path, as root and as working directory, and answer 403 to every
    request whose canonical path is outside it. *)
Theorem main_exits_or_guards_its_root (argv : list string) (wd : string)
        (rt : FS.node) (md : option (string -> string)) :
  PosixPath.isabs wd = true ->
  let target := main_target wd (nth_error argv 1) in
  match main argv wd rt md with
  | sys_exit code printed =>
      code = 1 /\ FS.isdir rt wd target = false
      /\ printed = "Error: " ++ target ++ " is not a directory"
  | serving h url =>
      FS.isdir rt wd target = true
      /\ base_dir h = target /\ cwd h = target
      /\ PosixPath.isabs (base_dir h) = true
      /\ forall path,
           ~ under (base_dir h)
               (PosixPath.abspath (cwd h) (file_path_of h (Urllib.urlparse_path path))) ->
           do_GET h path = Ok (send_error 403)
  end.
Proof.
  intros Hw target. pose proof (main_target_isabs wd (nth_error argv 1) Hw) as Ht.
  fold target in Ht. unfold main. fold target.
  destruct (FS.isdir rt wd target) eqn:E; cbn [negb].
  - assert (Hb : base_dir (__init__ (Some target) target rt md) = target).
    { cbn [__init__ base_dir]. now rewrite (isabs_not_empty target Ht). }
    repeat split; try assumption; try (now rewrite Hb).
    intros path Hout. unfold do_GET. apply dispatch_outside; [now rewrite Hb | exact Hout].
  - repeat split.
Qed.

Lemma main_exits_or_guards_its_root_witness :
  FS.isdir Sample.tree "/srv" "/srv/docs" = true
  /\ base_dir Sample.handler = "/srv/docs" /\ cwd Sample.handler = "/srv/docs"
  /\ PosixPath.isabs (base_dir Sample.handler) = true
  /\ forall path,
       ~ under (base_dir Sample.handler)
           (PosixPath.abspath (cwd Sample.handler)
              (file_path_of Sample.handler (Urllib.urlparse_path path))) ->
       do_GET Sample.handler path = Ok (send_error 403).
Proof.
  apply (main_exits_or_guards_its_root ["md-viewer.py"; "docs"] "/srv" Sample.tree
           (Some Sample.render)).
  reflexivity.
Defined.

(** X15.  When [main] serves, the address it opens in the browser is that of
    the fixed port, and the request for [/] there is answered with the
    listing of the target directory, titled with a dot. *)
Theorem main_serves_listing_of_target (argv : list string) (wd : string)
        (rt : FS.node) (md : option (string -> string))
        (h : DirectoryHandler) (url : string) :
  PosixPath.isabs wd = true ->
  main argv wd rt md = serving h url ->
  PosixPath.initial_slashes_of (base_dir h) = 1 ->
  url = "http://localhost:7429"
  /\ exists es,
       FS.resolve (root h) (cwd h) (base_dir h) = Some (FS.Dir es)
       /\ (all_valid (map fst es) ->
           do_GET h "/"
           = Ok (send_response 200 [("Content-type", "text/html")]
                   (directory_page "."
                      (map row (map (entry_for es []) (listed es)))))).
Proof.
  intros Hw Hm Hk. unfold main in Hm.
  set (target := main_target wd (nth_error argv 1)) in *.
  pose proof (main_target_isabs wd (nth_error argv 1) Hw) as Ht. fold target in Ht.
  destruct (FS.isdir rt wd target) eqn:E; [|discriminate]. cbn [negb] in Hm.
  injection Hm as <- <-. split; [reflexivity|].
  assert (Hb : base_dir (__init__ (Some target) target rt md) = target).
  { cbn [__init__ base_dir]. now rewrite (isabs_not_empty target Ht). }
  rewrite Hb in *. cbn [__init__ cwd root].
  unfold FS.isdir in E.
  destruct (FS.resolve rt wd target) as [[d|es|]|] eqn:Hr; try discriminate.
  rewrite (resolve_abs_cwd rt wd target target Ht) in Hr.
  exists es. split; [exact Hr|]. intros Hv.
  assert (Hc : canonical target) by now apply main_target_canonical.
  destruct (root_request rt target target es Hc (main_target_valid _ _ Hw) Hr) as [Hr' Hu'].
  assert (Hfp : file_path_of (__init__ (Some target) target rt md) "/"
                = PosixPath.join2 target "").
  { unfold file_path_of. now rewrite Hb. }
  unfold do_GET.
  apply (dispatch_directory (__init__ (Some target) target rt md) "/" es []);
    rewrite ?Hfp, ?Hb; cbn [__init__ cwd root]; assumption.
Qed.

Lemma main_serves_listing_of_target_witness :
  "http://localhost:7429" = "http://localhost:7429"
  /\ exists es,
       FS.resolve Sample.tree "/srv/docs" "/srv/docs" = Some (FS.Dir es)
       /\ (all_valid (map fst es) ->
           do_GET Sample.handler "/"
           = Ok (send_response 200 [("Content-type", "text/html")]
                   (directory_page "."
                      (map row (map (entry_for es []) (listed es)))))).
Proof.
  apply (main_serves_listing_of_target ["md-viewer.py"; "docs"] "/srv" Sample.tree
           (Some Sample.render) Sample.handler "http://localhost:7429").
  - reflexivity.
  - reflexivity.
  - reflexivity.
Defined.

(** ** The rendered page *)

Lemma markdown_page_in_order (title body : string) :
  in_order [ "<meta charset=" ++ dq ++ "utf-8" ++ dq ++ ">";
             title_tag title;
             "<a href=" ++ dq ++ "/" ++ dq ++ ">";
             body ]
           (markdown_page title body).
Proof.
  unfold markdown_page. cbn [in_order].
  exists "<!DOCTYPE html>
<html>
<head>". eexists. split; [unfold page_open; rewrite !append_assoc; reflexivity|].
  exists "". eexists. split; [reflexivity|].
  exists markdown_style. eexists.
  split; [unfold back_link; rewrite !append_assoc; reflexivity|].
  exists "← Back to directory</a></div>
 ". exists page_close. split; [reflexivity | exact I].
Qed.

(** X16.  The page of a Markdown file holds, one after the other: the
    declaration of the charset, the title with the prettified name of
    the file, the link back to [/], and what [markdown.markdown] returns
    for the text of the file, as it is; the text is the one read in text
    mode. *)
Theorem markdown_page_holds_rendered_text (h : DirectoryHandler) (path data : string)
        (render : string -> string) :
  let file_path := file_path_of h (Urllib.urlparse_path path) in
  canonical (base_dir h) ->
  under (base_dir h) (PosixPath.abspath (cwd h) file_path) ->
  FS.resolve (root h) (cwd h) file_path = Some (FS.File data) ->
  PyStr.endswith (PosixPath.basename file_path) ".md" = true ->
  FS.utf8_valid data = true ->
  markdown h = Some render ->
  exists body,
    do_GET h path = Ok (send_response 200 [("Content-type", "text/html")] body)
    /\ in_order [ "<meta charset=" ++ dq ++ "utf-8" ++ dq ++ ">";
                  "<title>MD Viewer - " ++ _pretty (PosixPath.basename file_path)
                  ++ "</title>";
                  "<a href=" ++ dq ++ "/" ++ dq ++ ">";
                  render (FS.universal_newlines data) ]
                body.
Proof.
  intros fp Hc Hu Hf Hn Hv Hm. eexists. split.
  - unfold do_GET. rewrite (dispatch_markdown h _ data Hc Hu Hf Hn). fold fp.
    unfold serve_markdown. rewrite Hm, (read_text_of_file h fp data Hf), Hv.
    reflexivity.
  - apply markdown_page_in_order.
Qed.

Lemma markdown_page_holds_rendered_text_witness :
  exists body,
    do_GET Sample.handler "/my-notes.md"
    = Ok (send_response 200 [("Content-type", "text/html")] body)
    /\ in_order [ "<meta charset=" ++ dq ++ "utf-8" ++ dq ++ ">";
                  "<title>MD Viewer - " ++ "My Notes.Md" ++ "</title>";
                  "<a href=" ++ dq ++ "/" ++ dq ++ ">";
                  "<p># Notes</p>" ]
                body.
Proof.
  apply (markdown_page_holds_rendered_text Sample.handler "/my-notes.md" "# Notes"
           Sample.render).
  - reflexivity.
  - exists ["my-notes.md"]%list. reflexivity.
  - reflexivity.
  - reflexivity.
  - reflexivity.
  - reflexivity.
Defined.

(** ** Requests for names that need an escape, and for names that do not *)

(** The request for the link of an entry whose path from the root
    [quote] leaves as it is: its [file_path], where that leads, and that
    it lies under the root. *)
Lemma link_file_path (h : DirectoryHandler) (dir nm : string)
      (es : list (string * FS.node)) (rest : list string) (x : FS.node) :
  let rel := PyStr.join "/" (rest ++ [nm])%list in
  let file_path := file_path_of h (Urllib.urlparse_path ("/" ++ Urllib.quote rel)) in
  canonical (base_dir h) -> PosixPath.isabs dir = true ->
  FS.resolve (root h) (cwd h) dir = Some (FS.Dir es) ->
  components (PosixPath.abspath (cwd h) dir) = (components (base_dir h) ++ rest)%list ->
  FS.valid_name nm = true ->
  FS.lookup nm es = Some x ->
  Urllib.quote rel = rel ->
  file_path = "/" ++ PyStr.join "/" ((components (base_dir h) ++ rest) ++ [nm])%list
  /\ FS.resolve (root h) (cwd h) file_path = Some x
  /\ under (base_dir h) (PosixPath.abspath (cwd h) file_path).
Proof.
  intros rel fp Hc Hd Hr Hu Hv Hl Hq.
  assert (Hvalid : all_valid ((components (base_dir h) ++ rest) ++ [nm])%list).
  { apply all_valid_app. split; [|now constructor].
    rewrite <- Hu. unfold PosixPath.abspath. rewrite Hd, components_normpath by assumption.
    now apply normal_names_valid. }
  assert (Hrest : Forall plain (rest ++ [nm])%list).
  { apply all_valid_plain. rewrite <- app_assoc in Hvalid.
    apply all_valid_app in Hvalid. tauto. }
  pose proof (quote_fixed rel Hq) as Hsafe.
  assert (Hparse : Urllib.urlparse_path ("/" ++ rel) = "/" ++ rel).
  { apply urlparse_path_plain;
      cbn [append PyStr.find Ascii.eqb Bool.eqb];
      now rewrite (all_chars_find Urllib.always_safe _ rel Hsafe). }
  assert (Hfp : fp = "/" ++ PyStr.join "/" ((components (base_dir h) ++ rest) ++ [nm])%list).
  { unfold fp, file_path_of. rewrite Hq, Hparse.
    change (PyStr.lstrip "/" ("/" ++ rel)) with (PyStr.lstrip "/" rel).
    assert (Hs : PyStr.startswith rel "/" = false).
    { unfold rel. destruct (rest ++ [nm])%list as [|c t] eqn:E;
        [now destruct rest|]. apply startswith_join. now inversion Hrest. }
    rewrite (lstrip_id rel Hs). unfold rel.
    rewrite join2_canonical; [now rewrite app_assoc | exact Hc | exact Hrest |].
    now destruct rest. }
  destruct (resolve_names (root h) (cwd h) _ Hvalid) as [Hres Hcomp].
  destruct (walk_of_resolve _ _ _ _ Hd Hr) as [[res Hroot] Hw].
  split; [exact Hfp|]. split.
  - rewrite Hfp, Hres, Hroot. rewrite <- Hroot.
    rewrite walk_app_name by assumption. rewrite <- Hu, Hw. exact Hl.
  - exists (rest ++ [nm])%list. now rewrite Hfp, Hcomp, app_assoc.
Qed.

Lemma endswith_last_name (L : list string) (nm suf : string) :
  no_sep suf ->
  PyStr.endswith ("/" ++ PyStr.join "/" (L ++ [nm])%list) suf = PyStr.endswith nm suf.
Proof.
  intros Hs. destruct L as [|c t].
  - apply (endswith_app_sep "" nm suf Hs).
  - rewrite join_app by discriminate.
    change ("/" ++ PyStr.join "/" (c :: t) ++ "/" ++ PyStr.join "/" [nm])
      with (("/" ++ PyStr.join "/" (c :: t)) ++ String "/" nm).
    now apply endswith_app_sep.
Qed.

(** C6.  In the second sample tree [annual report.txt] and [what?.txt]
    are regular files under the root whose names do not end in [.md].
    The requests for their URLs, [/annual%20report.txt] and
    [/what%3F.txt], are answered with 404, the path being joined to the
    root as it is received; so is the request that carries the second
    name as it is. *)
Theorem C6_escaped_name_not_found :
  FS.resolve Escaped.tree "/srv/docs" "/srv/docs/annual report.txt"
  = Some (FS.File "q1,q2")
  /\ FS.resolve Escaped.tree "/srv/docs" "/srv/docs/what?.txt" = Some (FS.File "who")
  /\ "/" ++ Urllib.quote "annual report.txt" = "/annual%20report.txt"
  /\ "/" ++ Urllib.quote "what?.txt" = "/what%3F.txt"
  /\ do_GET Escaped.handler "/annual%20report.txt" = Ok (send_error 404)
  /\ do_GET Escaped.handler "/what%3F.txt" = Ok (send_error 404)
  /\ do_GET Escaped.handler "/what?.txt" = Ok (send_error 404).
Proof. repeat split; reflexivity. Qed.

(** C7.  In the sample tree [my notes.md] is a Markdown file under the
    root, readable as UTF-8, and the [markdown] module is there.  The
    request for its URL, [/my%20notes.md], is answered with 404 and not
    with the rendered page. *)
Theorem C7_spaced_markdown_not_found :
  FS.resolve Sample.tree "/srv/docs" "/srv/docs/my notes.md" = Some (FS.File "# Spaced")
  /\ FS.utf8_valid "# Spaced" = true
  /\ PyStr.endswith "my notes.md" ".md" = true
  /\ (exists render, markdown Sample.handler = Some render)
  /\ "/" ++ Urllib.quote "my notes.md" = "/my%20notes.md"
  /\ file_path_of Sample.handler (Urllib.urlparse_path "/my%20notes.md")
     = "/srv/docs/my%20notes.md"
  /\ FS.resolve Sample.tree "/srv/docs" "/srv/docs/my%20notes.md" = None
  /\ do_GET Sample.handler "/my%20notes.md" = Ok (send_error 404).
Proof.
  repeat split; try reflexivity. exists Sample.render. reflexivity.
Qed.

(** C10.  A regular file that is not hidden and whose name ends in a case
    variant of [.md] other than [.md] itself is in the listing of its
    directory, with the Markdown icon.  A request whose path, joined to
    the root as it is received, leads to the file is answered by
    [serve_file]: status 200 and the bytes of the file, not the rendered
    page; the request for the link of its row is such a request when
    [quote] has nothing to escape in the path of the file from the
    root. *)
Theorem C10_case_variant_listed_served_raw (h : DirectoryHandler)
        (path nm data : string) (es : list (string * FS.node))
        (rest : list string) :
  let dir := file_path_of h (Urllib.urlparse_path path) in
  let rel := PyStr.join "/" (rest ++ [nm])%list in
  let e := {| entry_icon := "📝";
              entry_rel := Urllib.quote rel;
              entry_label := _pretty nm;
              entry_suffix := "" |} in
  canonical (base_dir h) ->
  FS.resolve (root h) (cwd h) dir = Some (FS.Dir es) ->
  components (PosixPath.abspath (cwd h) dir) = (components (base_dir h) ++ rest)%list ->
  all_valid (map fst es) ->
  FS.lookup nm es = Some (FS.File data) ->
  PyStr.startswith nm "." = false ->
  PyStr.endswith (PyStr.lower nm) ".md" = true ->
  PyStr.endswith nm ".md" = false ->
  (exists l, listing h dir = Ok l /\ In e l)
  /\ (forall path',
        let file_path := file_path_of h (Urllib.urlparse_path path') in
        under (base_dir h) (PosixPath.abspath (cwd h) file_path) ->
        FS.resolve (root h) (cwd h) file_path = Some (FS.File data) ->
        PosixPath.basename file_path = nm ->
        do_GET h path'
        = Ok (send_response 200
                [("Content-Length", PyStr.str (String.length data))] data))
  /\ (Urllib.quote rel = rel ->
      do_GET h ("/" ++ entry_rel e)
      = Ok (send_response 200
              [("Content-Length", PyStr.str (String.length data))] data)).
Proof.
  intros dir rel e Hc Hr Hu Hv Hl Hh He Hn.
  pose proof (canonical_isabs _ Hc) as Hb.
  pose proof (file_path_isabs h (Urllib.urlparse_path path) Hb) as Hd. fold dir in Hd.
  destruct (shown_markdown es nm data Hl Hh (suffix_lower_md nm Hh He)) as [Hs Hent].
  split; [|split].
  - eexists. split; [now apply (listing_spec h dir es rest)|].
    unfold e, rel. rewrite <- (Hent rest). now apply entry_listed with (FS.File data).
  - intros path' fp Hu' Hf Hbn.
    unfold do_GET. rewrite (dispatch_inside h _ Hc Hu').
    unfold dispatch_admitted. fold fp.
    rewrite (isfile_of_file h fp data Hf).
    rewrite (endswith_basename fp ".md") by reflexivity. rewrite Hbn, Hn.
    now rewrite (serve_file_of_file h fp data Hf).
  - intros Hq. unfold e, rel in *. cbn [entry_rel].
    assert (Hvn : FS.valid_name nm = true).
    { unfold all_valid in Hv. rewrite Forall_forall in Hv.
      apply Hv, lookup_In with (FS.File data), Hl. }
    destruct (link_file_path h dir nm es rest (FS.File data) Hc Hd Hr Hu Hvn Hl Hq)
      as (Hfp & Hf & Hu').
    unfold do_GET. rewrite (dispatch_inside h _ Hc Hu').
    unfold dispatch_admitted.
    rewrite (isfile_of_file h _ data Hf), (serve_file_of_file h _ data Hf).
    rewrite Hfp, endswith_last_name by reflexivity. now rewrite Hn.
Qed.

Lemma C10_witness :
  (exists l,
     listing Sample.handler "/srv/docs/" = Ok l
     /\ In {| entry_icon := "📝"; entry_rel := "NOTES.MD";
              entry_label := "Notes.Md"; entry_suffix := "" |} l)
  /\ do_GET Sample.handler "/NOTES.MD"
     = Ok (send_response 200 [("Content-Length", "7")] "# Upper").
Proof.
  destruct (C10_case_variant_listed_served_raw Sample.handler "/" "NOTES.MD" "# Upper"
              Sample.docs_entries [])
    as (H1 & _ & H3).
  - reflexivity.
  - reflexivity.
  - reflexivity.
  - repeat constructor.
  - reflexivity.
  - reflexivity.
  - reflexivity.
  - reflexivity.
  - split; [exact H1 | exact (H3 eq_refl)].
Defined.

(** In the second sample tree [MY NOTES.MD] is in the listing of the
    root with the link [/MY%20NOTES.MD]; the request for that link is
    answered with 404, and the one that carries the name as it is with
    the bytes of the file. *)
Example case_variant_escaped_link :
  (exists l,
     listing Escaped.handler "/srv/docs/" = Ok l
     /\ In {| entry_icon := "📝"; entry_rel := "MY%20NOTES.MD";
              entry_label := "My Notes.Md"; entry_suffix := "" |} l)
  /\ do_GET Escaped.handler "/MY%20NOTES.MD" = Ok (send_error 404)
  /\ do_GET Escaped.handler "/MY NOTES.MD"
     = Ok (send_response 200 [("Content-Length", "6")] "# Caps").
Proof.
  split; [|split]; try reflexivity.
  eexists. split; [reflexivity|]. cbn. tauto.
Qed.
